(** * pumpy3: the chain-addressed syringe-pump driver ([pump.py])

    A shallow embedding of the unit conversion ([convert_units],
    [convert_str_units]), the response normalizer ([remove_crud]), the
    transport session ([Pump.write], [Pump.read]) and the methods of
    class [Pump], followed by the properties of the specification that
    were checked against it.  Those properties start from a pump that
    has been constructed; the probe in [Pump.__init__] and the
    single-unit class [Pump2000] are embedded next, for the
    further properties of the code that close the file.

    Conventions of the embedding.
    - A Python [str] and a Python [bytes] value are both a Stdlib [string]
      (a list of 8-bit characters): the wire protocol is ASCII.
    - Diameters, rates and volumes are Python floats, as the docstrings
      type them.  A Python [float] is a primitive binary64 [float]; [==]
      and [<] on floats are [PrimFloat.eqb] and [PrimFloat.ltb].
    - A raised exception is a value of [exn]; a method is a function from
      the world before the call to an outcome and the world after it, so
      that whatever was written before an exception is still visible. *)

From Stdlib Require Import ZArith String Ascii List Bool Floats DecimalString.
From Stdlib Require Import Lia.
Import ListNotations.

Set Warnings "-inexact-float".

Local Open Scope string_scope.
Local Open Scope Z_scope.

(** ** Exceptions and outcomes *)

(** [PumpError] carries the arguments it was raised with: the formatted
    message alone, or, where the source passes the format and a tuple
    unformatted, the format followed by the members of the tuple. *)
Inductive exn : Type :=
| PumpError (args : list string)
| ValueError (msg : string)
| TypeError
| IndexError
| AttributeError
| UnicodeDecodeError.

Inductive outcome (A : Type) : Type :=
| Ok (a : A)
| Raise (e : exn).

Arguments Ok {A} a.
Arguments Raise {A} e.

(** ** Python string operations *)

Module Py.

Definition len (s : string) : Z := Z.of_nat (String.length s).

Fixpoint mem (c : ascii) (chars : string) : bool :=
  match chars with
  | EmptyString => false
  | String d rest => if Ascii.eqb c d then true else mem c rest
  end.

(** [sub in s] *)
Fixpoint contains (sub s : string) : bool :=
  if prefix sub s then true
  else match s with
       | EmptyString => false
       | String _ rest => contains sub rest
       end.

(** [s.find(sub)]: the lowest index where [sub] starts, or [-1]. *)
Fixpoint find_from (i : Z) (sub s : string) : Z :=
  if prefix sub s then i
  else match s with
       | EmptyString => -1
       | String _ rest => find_from (i + 1) sub rest
       end.

Definition find (sub s : string) : Z := find_from 0 sub s.

(** A slice bound, as Python resolves it against the length. *)
Definition bound (n i : Z) : Z :=
  if i <? 0 then Z.max 0 (i + n) else Z.min i n.

(** [s[lo:hi]]; [None] is an omitted bound. *)
Definition slice (lo hi : option Z) (s : string) : string :=
  let n := len s in
  let a := match lo with Some i => bound n i | None => 0 end in
  let b := match hi with Some i => bound n i | None => n end in
  substring (Z.to_nat a) (Z.to_nat (b - a)) s.

(** [s[i]]: [IndexError] outside [-len .. len-1]. *)
Definition index (s : string) (i : Z) : outcome ascii :=
  let j := if i <? 0 then i + len s else i in
  if (j <? 0) || (len s <=? j) then Raise IndexError
  else match String.get (Z.to_nat j) s with
       | Some c => Ok c
       | None => Raise IndexError
       end.

(** Stripping the characters that satisfy [drop] from either end. *)
Fixpoint lstrip_if (drop : ascii -> bool) (s : string) : string :=
  match s with
  | EmptyString => EmptyString
  | String c rest => if drop c then lstrip_if drop rest else s
  end.

Fixpoint rstrip_if (drop : ascii -> bool) (s : string) : string :=
  match s with
  | EmptyString => EmptyString
  | String c rest =>
      match rstrip_if drop rest with
      | EmptyString => if drop c then EmptyString else String c EmptyString
      | kept => String c kept
      end
  end.

(** [s.lstrip(chars)] and [s.rstrip(chars)] *)
Definition lstrip (chars s : string) : string :=
  lstrip_if (fun c => mem c chars) s.

Definition rstrip (chars s : string) : string :=
  rstrip_if (fun c => mem c chars) s.

(** [s.replace(c, '')] for a single character [c]. *)
Fixpoint remove_char (c : ascii) (s : string) : string :=
  match s with
  | EmptyString => EmptyString
  | String d rest =>
      if Ascii.eqb c d then remove_char c rest else String d (remove_char c rest)
  end.

Definition LF : ascii := ascii_of_nat 10.
Definition CR : ascii := ascii_of_nat 13.

(** The ASCII line boundaries of [str.splitlines]: LF, VT, FF, CR, FS,
    GS and RS. *)
Definition is_linebreak (c : ascii) : bool :=
  let n := nat_of_ascii c in
  (Nat.leb 10 n && Nat.leb n 13) || (Nat.leb 28 n && Nat.leb n 30).

(** [s.splitlines()]: CR LF is one boundary, and a final boundary
    opens no empty last line.  [cur] is the line read so far,
    reversed. *)
Fixpoint splitlines_aux (cur : list ascii) (s : string) : list string :=
  match s with
  | EmptyString =>
      match cur with
      | [] => []
      | _ => [string_of_list_ascii (rev cur)]
      end
  | String c rest =>
      if is_linebreak c then
        let rest' :=
          match rest with
          | String d rest2 =>
              if Ascii.eqb c CR && Ascii.eqb d LF then rest2 else rest
          | EmptyString => rest
          end in
        string_of_list_ascii (rev cur) :: splitlines_aux [] rest'
      else splitlines_aux (c :: cur) rest
  end.

Definition splitlines (s : string) : list string := splitlines_aux [] s.

(** The ASCII characters that [str.isspace] accepts. *)
Definition is_space (c : ascii) : bool :=
  let n := nat_of_ascii c in
  (Nat.leb 9 n && Nat.leb n 13) || (Nat.leb 28 n && Nat.leb n 32).

Definition is_digit (c : ascii) : bool :=
  let n := nat_of_ascii c in
  Nat.leb 48 n && Nat.leb n 57.

Definition hex_digit (n : nat) : ascii :=
  ascii_of_nat (if Nat.ltb n 10 then 48 + n else 87 + n).

(** [repr(s)] of an ASCII string: single quotes unless the text has a
    single quote and no double quote. *)
Definition repr (s : string) : string :=
  let quote :=
    if mem "'" s && negb (mem (ascii_of_nat 34) s)
    then ascii_of_nat 34 else "'"%char in
  let escape (c : ascii) : string :=
    let n := nat_of_ascii c in
    if Ascii.eqb c quote || Ascii.eqb c (ascii_of_nat 92)
    then String (ascii_of_nat 92) (String c EmptyString)
    else if Nat.eqb n 9 then String (ascii_of_nat 92) "t"
    else if Nat.eqb n 10 then String (ascii_of_nat 92) "n"
    else if Nat.eqb n 13 then String (ascii_of_nat 92) "r"
    else if Nat.ltb n 32 || Nat.eqb n 127
    then String (ascii_of_nat 92)
           (String "x" (String (hex_digit (Nat.div n 16))
                          (String (hex_digit (Nat.modulo n 16)) EmptyString)))
    else String c EmptyString in
  String quote
    (String.concat EmptyString (List.map escape (list_ascii_of_string s))
     ++ String quote EmptyString).

End Py.


(** ** Python floats: formatting and parsing

    The three conversions the driver relies on: ["%2.2f" % x],
    [str(x)] and [float(s)].  All three are exact in Python (correctly
    rounded on the binary value), so they are computed here on the exact
    value [m * 2^e] that [Prim2SF] gives. *)

Module PyFloat.

Definition dec (n : Z) : string :=
  NilZero.string_of_uint (N.to_uint (Z.to_N n)).

Fixpoint zeros (n : nat) : string :=
  match n with
  | O => EmptyString
  | S k => String "0" (zeros k)
  end.

Definition sign_text (s : bool) : string := if s then "-" else "".

(** The nearest integer to [num / den], ties to the even one
    ([0 <= num], [0 < den]). *)
Definition round_half_even (num den : Z) : Z :=
  let q := num / den in
  match 2 * (num mod den) ?= den with
  | Lt => q
  | Gt => q + 1
  | Eq => if Z.even q then q else q + 1
  end.

(** The exact value of a finite float as [num / den]. *)
Definition ratio (m : positive) (e : Z) : Z * Z :=
  if 0 <=? e then (Zpos m * 2 ^ e, 1) else (Zpos m, 2 ^ (- e)).

Definition fixed_unsigned (places : nat) (num den : Z) : string :=
  let scale := 10 ^ Z.of_nat places in
  let n := round_half_even (num * scale) den in
  let frac := dec (n mod scale) in
  match places with
  | O => dec n
  | _ => dec (n / scale) ++ "." ++ zeros (places - String.length frac) ++ frac
  end.

(** ["%.<places>f" % x]; a minimal field width no wider than the
    shortest output (as in ["%2.2f"]) changes nothing. *)
Definition fixed (places : nat) (x : float) : string :=
  match Prim2SF x with
  | S754_nan => "nan"
  | S754_infinity s => sign_text s ++ "inf"
  | S754_zero s => sign_text s ++ fixed_unsigned places 0 1
  | S754_finite s m e =>
      let '(num, den) := ratio m e in
      sign_text s ++ fixed_unsigned places num den
  end.

(** *** [str(x)]: the shortest decimal that reads back as [x] *)

(** The reals that round to the float [m * 2^e]: from [lo / den] to
    [hi / den] around [mid / den], bounds included when [m] is even.
    The gap below a power of two is half the gap above it. *)
Record interval : Type :=
  { lo : Z; mid : Z; hi : Z; den : Z; closed : bool }.

Definition neighbourhood (m : positive) (e : Z) : interval :=
  let below := if (Zpos m =? 2 ^ 52) && (-1074 <? e) then 1 else 2 in
  let scale := if 2 <=? e then 2 ^ (e - 2) else 1 in
  {| lo := (4 * Zpos m - below) * scale;
     mid := 4 * Zpos m * scale;
     hi := (4 * Zpos m + 2) * scale;
     den := if 2 <=? e then 1 else 2 ^ (2 - e);
     closed := Z.even (Zpos m) |}.

Definition ndigits (n : Z) : Z := Py.len (dec n).

Fixpoint below_one (fuel : nat) (j num d : Z) : Z :=
  match fuel with
  | O => j
  | S f => if d <=? num * 10 ^ j then j else below_one f (j + 1) num d
  end.

(** [k] with [10^k <= num / d < 10^(k+1)], for a positive float. *)
Definition exponent10 (num d : Z) : Z :=
  if d <=? num then ndigits (num / d) - 1 else - below_one 400 1 num d.

(** The [p]-digit decimals [c * 10^q] next to the value, when one of
    them lies in the interval: the nearer one. *)
Definition try_digits (iv : interval) (k p : Z) : option (Z * Z) :=
  let q := k - p + 1 in
  let s1 := 10 ^ Z.max (- q) 0 in
  let s2 := den iv * 10 ^ Z.max q 0 in
  let a := (mid iv * s1) / s2 in
  let inside c :=
    if closed iv
    then (lo iv * s1 <=? c * s2) && (c * s2 <=? hi iv * s1)
    else (lo iv * s1 <? c * s2) && (c * s2 <? hi iv * s1) in
  let dist c := Z.abs (c * s2 - mid iv * s1) in
  match inside a, inside (a + 1) with
  | true, true => Some (if dist a <=? dist (a + 1) then a else a + 1, q)
  | true, false => Some (a, q)
  | false, true => Some (a + 1, q)
  | false, false => None
  end.

Fixpoint shortest_from (fuel : nat) (iv : interval) (k p : Z) : Z * Z :=
  match fuel with
  | O => (mid iv * 10 ^ Z.max (p - 1 - k) 0 / (den iv * 10 ^ Z.max (k - p + 1) 0),
          k - p + 1)
  | S f =>
      match try_digits iv k p with
      | Some r => r
      | None => shortest_from f iv k (p + 1)
      end
  end.

Fixpoint strip_zeros (fuel : nat) (c q : Z) : Z * Z :=
  match fuel with
  | O => (c, q)
  | S f => if c mod 10 =? 0 then strip_zeros f (c / 10) (q + 1) else (c, q)
  end.

(** The digits [ds] and the position [decpt] of the decimal point:
    the value reads [0.ds * 10^decpt]. *)
Definition shortest (m : positive) (e : Z) : string * Z :=
  let iv := neighbourhood m e in
  let k := exponent10 (mid iv) (den iv) in
  let '(c, q) := shortest_from 17 iv k 1 in
  let '(c, q) := strip_zeros 20 c q in
  (dec c, ndigits c + q).

Definition two_digits (n : Z) : string :=
  if n <? 10 then "0" ++ dec n else dec n.

(** The layout of [repr]: exponent notation when [decpt <= -4] or
    [decpt > 16]. *)
Definition layout (ds : string) (decpt : Z) : string :=
  let n := Py.len ds in
  if (decpt <=? -4) || (16 <? decpt) then
    let mant :=
      match ds with
      | String d (String _ _ as rest) => String d ("." ++ rest)
      | _ => ds
      end in
    mant ++ "e" ++ (if decpt - 1 <? 0 then "-" else "+")
         ++ two_digits (Z.abs (decpt - 1))
  else if decpt <=? 0 then "0." ++ zeros (Z.to_nat (- decpt)) ++ ds
  else if n <=? decpt then ds ++ zeros (Z.to_nat (decpt - n)) ++ ".0"
  else substring 0 (Z.to_nat decpt) ds ++ "."
         ++ substring (Z.to_nat decpt) (Z.to_nat (n - decpt)) ds.

Definition str (x : float) : string :=
  match Prim2SF x with
  | S754_nan => "nan"
  | S754_infinity s => sign_text s ++ "inf"
  | S754_zero s => sign_text s ++ "0.0"
  | S754_finite s m e =>
      let '(ds, decpt) := shortest m e in
      sign_text s ++ layout ds decpt
  end.

(** *** [float(s)] *)

Definition lower (c : ascii) : ascii :=
  let n := nat_of_ascii c in
  if Nat.leb 65 n && Nat.leb n 90 then ascii_of_nat (n + 32) else c.

Fixpoint lowercase (s : string) : string :=
  match s with
  | EmptyString => EmptyString
  | String c rest => String (lower c) (lowercase rest)
  end.

(** An underscore is accepted between two digits only, and dropped. *)
Fixpoint drop_underscores (prev : ascii) (s : string) : option string :=
  match s with
  | EmptyString => Some EmptyString
  | String c rest =>
      if Ascii.eqb c "_" then
        match rest with
        | String d _ =>
            if Py.is_digit prev && Py.is_digit d
            then drop_underscores c rest else None
        | EmptyString => None
        end
      else option_map (String c) (drop_underscores c rest)
  end.

(** The leading digits of [s], as a number, their count, and the rest. *)
Fixpoint digits (acc : Z) (count : nat) (s : string) : Z * nat * string :=
  match s with
  | String c rest =>
      if Py.is_digit c
      then digits (10 * acc + Z.of_nat (nat_of_ascii c - 48)) (S count) rest
      else (acc, count, s)
  | EmptyString => (acc, count, s)
  end.

(** An exponent: [e] or [E], a sign if any, one digit at least; the
    whole of the text must be used up. *)
Definition exponent (s : string) : option Z :=
  match s with
  | EmptyString => Some 0
  | String c rest =>
      if Ascii.eqb (lower c) "e" then
        let '(neg, rest) :=
          match rest with
          | String "-" r => (true, r)
          | String "+" r => (false, r)
          | _ => (false, rest)
          end in
        match digits 0 0 rest with
        | (_, O, _) => None
        | (x, _, EmptyString) => Some (if neg then - x else x)
        | _ => None
        end
      else None
  end.

(** [n * 10^x], rounded to the nearest float, ties to even. *)
Definition scale10 (n x digits_n : Z) : float :=
  if n =? 0 then 0%float
  else if 310 <? x + digits_n then infinity
  else if x + digits_n <? -330 then 0%float
  else if 0 <=? x then SF2Prim (binary_normalize prec emax (n * 10 ^ x) 0 false)
  else SF2Prim (SFdiv prec emax (S754_finite false (Z.to_pos n) 0)
                  (S754_finite false (Z.to_pos (10 ^ (- x))) 0)).

Definition unsigned (s : string) : option float :=
  let l := lowercase s in
  if String.eqb l "inf" || String.eqb l "infinity" then Some infinity
  else if String.eqb l "nan" then Some nan
  else
    let '(ip, ni, rest) := digits 0 0 s in
    let '(fp, nf, rest) :=
      match rest with
      | String "." r => digits ip 0 r
      | _ => (ip, O, rest)
      end in
    match (ni + nf)%nat, exponent rest with
    | O, _ => None
    | _, None => None
    | _, Some x => Some (scale10 fp (x - Z.of_nat nf) (ndigits fp))
    end.

Definition float_of_str (s : string) : outcome float :=
  let failed :=
    Raise (ValueError ("could not convert string to float: " ++ Py.repr s)) in
  let t := Py.rstrip_if Py.is_space (Py.lstrip_if Py.is_space s) in
  match drop_underscores " " t with
  | None => failed
  | Some t =>
      let '(neg, body) :=
        match t with
        | String "-" r => (true, r)
        | String "+" r => (false, r)
        | _ => (false, t)
        end in
      match unsigned body with
      | Some x => Ok (if neg then (- x)%float else x)
      | None => failed
      end
  end.

End PyFloat.

(** ** Response normalizer and unit conversion (module-level functions) *)

Definition remove_crud (string : String.string) : String.string :=
  let string :=
    if Py.contains "." string then Py.rstrip "0" string else string in
  let string := Py.lstrip "0 " string in
  let string := Py.rstrip " ." string in
  string.

Definition convert_units (val : float) (fromUnit toUnit : string) : float :=
  (let time_factor_from : float :=
     if String.eqb (Py.slice (Some (-3)%Z) None fromUnit) "sec" then 60
     else if String.eqb fromUnit "hor" then 1 / 60
     else 1 in
   let time_factor_to : float :=
     if String.eqb (Py.slice (Some (-3)%Z) None toUnit) "sec" then 1 / 60
     else if String.eqb (Py.slice (Some (-3)%Z) None toUnit) "hor" then 60
     else 1 in
   let vol_factor_from : float :=
     if String.eqb (Py.slice None (Some 2%Z) fromUnit) "ml" then 1000
     else if String.eqb (Py.slice None (Some 2%Z) fromUnit) "nl" then 1 / 1000
     else if String.eqb (Py.slice None (Some 2%Z) fromUnit) "pl" then 1 / 1e6
     else 1 in
   let vol_factor_to : float :=
     if String.eqb (Py.slice None (Some 2%Z) toUnit) "ml" then 1 / 1000
     else if String.eqb (Py.slice None (Some 2%Z) toUnit) "nl" then 1000
     else if String.eqb (Py.slice None (Some 2%Z) toUnit) "pl" then 1e6
     else 1 in
   val * time_factor_from * time_factor_to * vol_factor_from * vol_factor_to)%float.

Definition convert_str_units (abbr : string) : outcome string :=
  match Py.index abbr 0 with
  | Raise e => Raise e
  | Ok a0 =>
      let first_part := String a0 "l" in
      match Py.index abbr 2 with
      | Raise e => Raise e
      | Ok a2 =>
          if Ascii.eqb a2 "s" then Ok (first_part ++ "/" ++ "sec")
          else if Ascii.eqb a2 "m" then Ok (first_part ++ "/" ++ "min")
          else if Ascii.eqb a2 "h" then Ok (first_part ++ "/" ++ "hor")
          else Raise (ValueError "Unknown unit")
      end
  end.

(** ** The scale-factor tables, as the specification words them

    One table per axis, looked up by the two-character volume prefix and
    by the three-character time suffix; anything else counts for [1].
    [convert_by_tables] is the formula of the specification over these
    tables, to be compared with [convert_units]. *)

Definition volume_prefix (unit : string) : string := Py.slice None (Some 2) unit.
Definition time_suffix (unit : string) : string := Py.slice (Some (-3)) None unit.

Definition vol_table (prefix : string) : float :=
  (if String.eqb prefix "ml" then 1000
   else if String.eqb prefix "ul" then 1
   else if String.eqb prefix "nl" then 1 / 1000
   else if String.eqb prefix "pl" then 1 / 1e6
   else 1)%float.

Definition time_table (suffix : string) : float :=
  (if String.eqb suffix "sec" then 1 / 60
   else if String.eqb suffix "min" then 1
   else if String.eqb suffix "hor" then 60
   else 1)%float.

Definition convert_by_tables (value : float) (fromUnit toUnit : string) : float :=
  (value
   * (vol_table (volume_prefix fromUnit) / vol_table (volume_prefix toUnit))
   * (time_table (time_suffix fromUnit) / time_table (time_suffix toUnit)))%float.

(** ** The pattern of a numeral with its volume unit

    The regular expression of the getters and setters: group 1 is one
    digit or more, a dot if any, and any further digits; then a space;
    group 2 is one of [m], [u], [p] followed by [l].
    [re.search] returns the leftmost match.  At a given start the numeral
    is a maximal run of digits, a dot if one follows, and a second maximal
    run of digits: giving characters back never helps, since the numeral
    has to end right before a space. *)

Module Re.

Fixpoint span_digits (s : string) : string * string :=
  match s with
  | String c rest =>
      if Py.is_digit c
      then let '(ds, tail) := span_digits rest in (String c ds, tail)
      else (EmptyString, s)
  | EmptyString => (EmptyString, s)
  end.

(** Groups 1 and 2 of a match that starts at the head of [s]. *)
Definition match_here (s : string) : option (string * string) :=
  let '(whole, r1) := span_digits s in
  match whole with
  | EmptyString => None
  | _ =>
      let '(dot, r2) :=
        match r1 with
        | String "." r => (".", r)
        | _ => ("", r1)
        end in
      let '(frac, r3) := span_digits r2 in
      match r3 with
      | String " " (String u (String "l" _)) =>
          if Py.mem u "mup"
          then Some (whole ++ dot ++ frac, String u "l")
          else None
      | _ => None
      end
  end.

Fixpoint search (s : string) : option (string * string) :=
  match match_here s with
  | Some groups => Some groups
  | None =>
      match s with
      | EmptyString => None
      | String _ rest => search rest
      end
  end.

End Re.

(** ** The world: one pump on its serial chain *)

(** [self.state]: the labels ['idle'], ['infusing'] and ['withdrawing']. *)
Inductive pump_state : Type := idle | infusing | withdrawing.

Definition pump_state_eqb (a b : pump_state) : bool :=
  match a, b with
  | idle, idle | infusing, infusing | withdrawing, withdrawing => true
  | _, _ => false
  end.

(** The attributes of a [Pump] object ([syringevolume] exists only once
    [setsyringevolume] has stored it). *)
Record pump : Type :=
  { name : string;
    address : string;
    diameter : option float;
    flowrate : option float;
    targetvolume : option float;
    syringevolume : option float;
    state : pump_state }.

(** The serial port: [tx] holds the frames written so far, oldest first;
    [rx] holds what the coming [read] calls will find on the line, one
    entry per call.  A call that asks for fewer bytes than its entry
    holds leaves the rest in front of the next entry. *)
Record serial : Type :=
  { tx : list string;
    rx : list string }.

(** What the process shows to the outside besides the wire. *)
Inductive event : Type :=
| Printed (text : string)
| LogInfo (text : string)
| LogError (text : string).

(** A [threading.Thread] object: constructed with its target, and running
    only once [start()] has been called on it. *)
Inductive target : Type := Waituntilfinished.

Record thread : Type :=
  { thread_target : target;
    started : bool }.

Record world : Type :=
  { dev : pump;
    port : serial;
    events : list event;
    threads : list thread }.

Definition with_dev (f : pump -> pump) (w : world) : world :=
  {| dev := f (dev w); port := port w; events := events w; threads := threads w |}.

Definition with_port (p : serial) (w : world) : world :=
  {| dev := dev w; port := p; events := events w; threads := threads w |}.

Definition emit (e : event) (w : world) : world :=
  {| dev := dev w; port := port w; events := events w ++ [e]; threads := threads w |}.

Definition construct_thread (t : target) (w : world) : world :=
  {| dev := dev w; port := port w; events := events w;
     threads := threads w ++ [{| thread_target := t; started := false |}] |}.

Definition set_diameter (x : float) (p : pump) : pump :=
  {| name := name p; address := address p; diameter := Some x;
     flowrate := flowrate p; targetvolume := targetvolume p;
     syringevolume := syringevolume p; state := state p |}.

Definition set_flowrate (x : float) (p : pump) : pump :=
  {| name := name p; address := address p; diameter := diameter p;
     flowrate := Some x; targetvolume := targetvolume p;
     syringevolume := syringevolume p; state := state p |}.

Definition set_targetvolume (x : float) (p : pump) : pump :=
  {| name := name p; address := address p; diameter := diameter p;
     flowrate := flowrate p; targetvolume := Some x;
     syringevolume := syringevolume p; state := state p |}.

Definition set_syringevolume (x : float) (p : pump) : pump :=
  {| name := name p; address := address p; diameter := diameter p;
     flowrate := flowrate p; targetvolume := targetvolume p;
     syringevolume := Some x; state := state p |}.

Definition set_state (s : pump_state) (p : pump) : pump :=
  {| name := name p; address := address p; diameter := diameter p;
     flowrate := flowrate p; targetvolume := targetvolume p;
     syringevolume := syringevolume p; state := s |}.

(** [serial.Serial.write] and [serial.Serial.read] *)
Definition serial_write (frame : string) (p : serial) : serial :=
  {| tx := tx p ++ [frame]; rx := rx p |}.

Definition serial_read (size : nat) (p : serial) : string * serial :=
  match rx p with
  | [] => (EmptyString, p)
  | chunk :: later =>
      let unread := substring size (String.length chunk - size) chunk in
      (substring 0 size chunk,
       {| tx := tx p;
          rx := match unread, later with
                | EmptyString, _ => later
                | _, [] => [unread]
                | _, next :: rest => (unread ++ next) :: rest
                end |})
  end.

(** [bytes.decode()] on a reply of the ASCII protocol; a byte above 127
    is reported as undecodable. *)
Definition decode (bytes : string) : outcome string :=
  if forallb (fun c => Nat.ltb (nat_of_ascii c) 128) (list_ascii_of_string bytes)
  then Ok bytes else Raise UnicodeDecodeError.

(** ** Methods as state transformers that may raise *)

Definition M (A : Type) : Type := world -> outcome A * world.

Definition ret {A} (a : A) : M A := fun w => (Ok a, w).

Definition raise {A} (e : exn) : M A := fun w => (Raise e, w).

Definition bind {A B} (c : M A) (k : A -> M B) : M B :=
  fun w =>
    match c w with
    | (Ok a, w') => k a w'
    | (Raise e, w') => (Raise e, w')
    end.

Definition lift {A} (o : outcome A) : M A := fun w => (o, w).

Definition gets {A} (f : world -> A) : M A := fun w => (Ok (f w), w).

Definition modify (f : world -> world) : M unit := fun w => (Ok tt, f w).

Declare Scope pump_scope.
Delimit Scope pump_scope with pump.

Notation "x <- c ;; k" := (bind c (fun x => k))
  (at level 61, c at next level, right associativity) : pump_scope.
Notation "c ;; k" := (bind c (fun _ => k))
  (at level 61, right associativity) : pump_scope.

Local Open Scope pump_scope.

(** A reply is a [str] or [None]; using [None] as a string raises [e]. *)
Definition text_of (e : exn) (resp : option string) : M string :=
  match resp with
  | Some s => ret s
  | None => raise e
  end.

(** [lines[i]] on a list. *)
Definition item (lines : list string) (i : Z) : outcome string :=
  let n := Z.of_nat (List.length lines) in
  let j := if i <? 0 then i + n else i in
  if (j <? 0) || (n <=? j) then Raise IndexError
  else match nth_error lines (Z.to_nat j) with
       | Some s => Ok s
       | None => Raise IndexError
       end.

Definition is_status_token (c : ascii) : bool :=
  Ascii.eqb c ":" || Ascii.eqb c "<" || Ascii.eqb c ">".

Definition print (text : string) : M unit := modify (emit (Printed text)).
Definition logging_info (text : string) : M unit := modify (emit (LogInfo text)).
Definition logging_error (text : string) : M unit := modify (emit (LogError text)).

(** A method that returns nothing. *)
Definition action : Type := M unit.

Definition newline : string := String Py.LF EmptyString.

Definition py_ne (x y : float) : bool := negb (PrimFloat.eqb x y).

(** ** class Pump *)

Module Pump.

Definition self_name : M string := gets (fun w => name (dev w)).
Definition self_state : M pump_state := gets (fun w => state (dev w)).

Definition write (command : string) : action :=
  fun w =>
    (Ok tt,
     with_port
       (serial_write (address (dev w) ++ command ++ String Py.CR EmptyString)
          (port w)) w).

Definition read (bytes : nat) : M (option string) :=
  fun w =>
    let '(response, p) := serial_read bytes (port w) in
    if Nat.eqb (String.length response) 0 then (Ok None, with_port p w)
    else
      match decode response with
      | Ok response =>
          let response := Py.remove_char Py.LF response in
          (Ok (Some response), with_port p w)
      | Raise e => (Raise e, with_port p w)
      end.

Definition setdiameter (diameter : float) : action :=
  st <- self_state ;;
  if pump_state_eqb st idle then
    if PrimFloat.ltb 35 diameter || PrimFloat.ltb diameter 0.1 then
      nm <- self_name ;;
      raise (PumpError [nm ++ ": diameter " ++ PyFloat.str diameter
                           ++ " mm is out of range"])
    else
      let str_diameter := PyFloat.fixed 2 diameter in
      write ("diameter " ++ str_diameter) ;;
      resp <- read 80 ;;
      resp <- text_of AttributeError resp ;;
      last_line <- lift (item (Py.splitlines resp) (-1)) ;;
      c <- lift (Py.index last_line 2) ;;
      if is_status_token c then
        write "diameter" ;;
        resp <- read 45 ;;
        resp <- text_of TypeError resp ;;
        let returned_diameter := remove_crud (Py.slice (Some 3) (Some 9) resp) in
        x <- lift (PyFloat.float_of_str returned_diameter) ;;
        nm <- self_name ;;
        if py_ne x diameter then
          logging_error
            (nm ++ ": set diameter (" ++ PyFloat.str diameter
                ++ " mm) does not match diameter returned by pump ("
                ++ returned_diameter ++ " mm)")
        else if PrimFloat.eqb x diameter then
          modify (with_dev (set_diameter x)) ;;
          logging_info (nm ++ ": diameter set to " ++ PyFloat.str x ++ " mm")
        else ret tt
      else
        nm <- self_name ;;
        raise (PumpError [nm ++ ": unknown response to setdiameter"])
  else print ("Please wait until pump is idle." ++ newline).

(** The message of a set-then-verify mismatch of a rate; the two
    literals of the source are adjacent, with no space between them. *)
Definition flowrate_mismatch (nm : string) (flowrate : float) (unit : string)
    (returned_flowrate : float) : string :=
  nm ++ ": set flowrate (" ++ PyFloat.str flowrate ++ " " ++ unit
     ++ ") does not match" ++ "flowrate returned by pump ("
     ++ PyFloat.str returned_flowrate ++ " " ++ unit ++ ")".

Definition setwithdrawrate (flowrate : float) (unit : string) : action :=
  st <- self_state ;;
  if pump_state_eqb st idle then
    write ("wrate " ++ PyFloat.str flowrate ++ " " ++ unit) ;;
    resp <- read 7 ;;
    resp <- text_of TypeError resp ;;
    c <- lift (Py.index resp 2) ;;
    if is_status_token c then
      write "wrate" ;;
      resp <- read 150 ;;
      resp <- text_of AttributeError resp ;;
      resp <- lift (item (Py.splitlines resp) 0) ;;
      nm <- self_name ;;
      if Py.contains "Argument error" resp then
        raise (PumpError [nm ++ ": flow rate (" ++ PyFloat.str flowrate ++ " "
                             ++ unit ++ ") is out of range"])
      else
        first <- lift (Py.index (PyFloat.str flowrate) 0) ;;
        let idx1 := Py.find (String first EmptyString) resp in
        let idx2 := Py.find "l/" resp in
        let returned_flowrate :=
          remove_crud (Py.slice (Some idx1) (Some (idx2 - 1)) resp) in
        let returned_unit := Py.slice (Some (idx2 - 1)) (Some (idx2 + 5)) resp in
        x <- lift (PyFloat.float_of_str returned_flowrate) ;;
        full <- lift (convert_str_units unit) ;;
        let returned_flowrate := convert_units x returned_unit full in
        if py_ne returned_flowrate flowrate then
          logging_error (flowrate_mismatch nm flowrate unit returned_flowrate)
        else if PrimFloat.eqb returned_flowrate flowrate then
          modify (with_dev (set_flowrate returned_flowrate)) ;;
          logging_info (nm ++ ": flow rate set to "
                           ++ PyFloat.str returned_flowrate ++ " uL/min")
        else ret tt
    else
      nm <- self_name ;;
      raise (PumpError [nm ++ ": unknown response"])
  else print ("Please wait until pump is idle." ++ newline).

Definition setinfusionrate (flowrate : float) (unit : string) : action :=
  st <- self_state ;;
  if pump_state_eqb st idle then
    write ("irate " ++ PyFloat.str flowrate ++ " " ++ unit) ;;
    resp <- read 17 ;;
    resp <- text_of TypeError resp ;;
    if Py.contains ":" resp || Py.contains "<" resp || Py.contains ">" resp then
      write "irate" ;;
      resp <- read 150 ;;
      resp <- text_of TypeError resp ;;
      nm <- self_name ;;
      if Py.contains "error" resp then
        raise (PumpError [nm ++ ": flow rate (" ++ PyFloat.str flowrate ++ " "
                             ++ unit ++ "l) is out of range"])
      else
        match Re.search resp with
        | None => raise (PumpError ["Syringe volume could not be found"])
        | Some (returned_flowrate, returned_unit) =>
            x <- lift (PyFloat.float_of_str returned_flowrate) ;;
            full <- lift (convert_str_units unit) ;;
            let returned_flowrate := convert_units x returned_unit full in
            if py_ne returned_flowrate flowrate then
              logging_error (flowrate_mismatch nm flowrate unit returned_flowrate)
            else if PrimFloat.eqb returned_flowrate flowrate then
              modify (with_dev (set_flowrate returned_flowrate)) ;;
              logging_info (nm ++ ": flow rate set to "
                               ++ PyFloat.str returned_flowrate ++ " uL/min")
            else ret tt
        end
    else
      nm <- self_name ;;
      raise (PumpError [nm ++ ": unknown response"])
  else print ("Please wait until pump is idle." ++ newline).

(** [threading.Thread(target=self.waituntilfinished)]: the object is
    constructed and dropped; [start()] is not called on it. *)
Definition infuse : action :=
  st <- self_state ;;
  if pump_state_eqb st idle then
    write "irun" ;;
    resp <- read 55 ;;
    resp <- text_of TypeError resp ;;
    if Py.contains "Command error" resp then
      error_msg <- lift (item (Py.splitlines resp) 1) ;;
      nm <- self_name ;;
      raise (PumpError ["%s: %s"; nm; error_msg])
    else
      modify (with_dev (set_state infusing)) ;;
      modify (construct_thread Waituntilfinished)
  else print ("Please wait until the pump is idle before infusing." ++ newline).

(** How a call of [waituntilfinished] ends: it returned ["finished"],
    it left the loop and returned [None], or it is still polling after
    [fuel] rounds. *)
Inductive polled : Type := Finished | Left_loop | Still_polling.

(** One round reads five bytes; whatever the round raises (a [None]
    reply searched for the marker, an undecodable byte) is swallowed
    by the bare [except]. *)
Fixpoint waituntilfinished (fuel : nat) (w : world) : polled * world :=
  match fuel with
  | O => (Still_polling, w)
  | S fuel' =>
      if pump_state_eqb (state (dev w)) infusing
         || pump_state_eqb (state (dev w)) withdrawing
      then
        match read 5 w with
        | (Ok (Some resp), w') =>
            if Py.contains "T*" resp
            then (Finished, with_dev (set_state idle) w')
            else waituntilfinished fuel' w'
        | (_, w') => waituntilfinished fuel' w'
        end
      else (Left_loop, w)
  end.

Definition withdraw : action :=
  st <- self_state ;;
  if pump_state_eqb st idle then
    write "wrun" ;;
    resp <- read 85 ;;
    resp <- text_of TypeError resp ;;
    if Py.contains "Command error" resp then
      error_msg <- lift (item (Py.splitlines resp) 1) ;;
      nm <- self_name ;;
      raise (PumpError ["%s: %s"; nm; error_msg])
    else
      modify (with_dev (set_state withdrawing)) ;;
      modify (construct_thread Waituntilfinished)
  else print ("Please wait until the pump is idle before withdrawing." ++ newline).

Definition settargetvolume (targetvolume : float) (unit : string) : action :=
  st <- self_state ;;
  if pump_state_eqb st idle then
    write ("tvolume " ++ PyFloat.str targetvolume ++ " " ++ unit) ;;
    resp <- read 7 ;;
    nm <- self_name ;;
    if true then
      write "tvolume" ;;
      resp <- read 150 ;;
      resp <- text_of TypeError resp ;;
      if Py.contains "Target volume not set" resp then
        raise (PumpError [nm ++ ": Target volume (" ++ PyFloat.str targetvolume
                             ++ " " ++ unit ++ ") could not be set"])
      else
        match Re.search resp with
        | None => raise (PumpError ["Syringe volume could not be found"])
        | Some (returned_targetvolume, returned_unit) =>
            x <- lift (PyFloat.float_of_str returned_targetvolume) ;;
            full <- lift (convert_str_units (unit ++ "/min")) ;;
            let returned_targetvolume :=
              convert_units x (returned_unit ++ "/min") full in
            if py_ne returned_targetvolume targetvolume then
              logging_error
                (nm ++ ": set targetvolume (" ++ PyFloat.str targetvolume ++ " "
                    ++ unit ++ ") does not match"
                    ++ "targetvolume returned by pump ("
                    ++ PyFloat.str returned_targetvolume ++ " " ++ unit ++ ")")
            else if PrimFloat.eqb returned_targetvolume targetvolume then
              modify (with_dev (set_targetvolume returned_targetvolume)) ;;
              full <- lift (convert_str_units (unit ++ "/min")) ;;
              logging_info
                (nm ++ ": target volume set to "
                    ++ PyFloat.str returned_targetvolume ++ " "
                    ++ Py.slice None (Some 2) full)
            else ret tt
        end
    else raise (PumpError [nm ++ ": unknown response"])
  else print ("Please wait until pump is idle." ++ newline).

Definition gettargetvolume : M string :=
  write "tvolume" ;;
  resp <- read 150 ;;
  resp <- text_of TypeError resp ;;
  if Py.contains "Target volume not set" resp then
    nm <- self_name ;;
    raise (PumpError [nm ++ ": Target volume not be set"])
  else
    match Re.search resp with
    | None => raise (PumpError ["Target value could not be found"])
    | Some (returned_targetvolume, returned_unit) =>
        ret (returned_targetvolume ++ " " ++ returned_unit)
    end.

Definition getsyringevolume : M string :=
  write "svolume" ;;
  resp <- read 60 ;;
  resp <- text_of TypeError resp ;;
  match Re.search resp with
  | None => raise (PumpError ["Syringe volume could not be found"])
  | Some (returned_volume, returned_unit) =>
      ret (returned_volume ++ " " ++ returned_unit)
  end.

Definition setsyringevolume (vol : float) (unit : string) : action :=
  st <- self_state ;;
  if pump_state_eqb st idle then
    write ("svolume " ++ PyFloat.str vol ++ " " ++ unit ++ "l") ;;
    resp <- read 10 ;;
    resp <- text_of TypeError resp ;;
    c <- lift (Py.index resp (-1)) ;;
    nm <- self_name ;;
    if is_status_token c then
      volume_str <- getsyringevolume ;;
      let returned_volume := Py.slice None (Some (-3)) volume_str in
      let returned_unit := Py.slice (Some (-2)) None volume_str in
      x <- lift (PyFloat.float_of_str returned_volume) ;;
      full <- lift (convert_str_units (unit ++ "/min")) ;;
      let returned_volume := convert_units x (returned_unit ++ "/min") full in
      if py_ne returned_volume vol then
        logging_error
          (nm ++ ": set syringe volume (" ++ PyFloat.str vol ++ " " ++ unit
              ++ ") does not match" ++ "syringe volume returned by pump ("
              ++ PyFloat.str returned_volume ++ " " ++ unit ++ ")")
      else if PrimFloat.eqb returned_volume vol then
        modify (with_dev (set_syringevolume returned_volume)) ;;
        full <- lift (convert_str_units (unit ++ "/min")) ;;
        logging_info
          (nm ++ ": syringe volume set to " ++ PyFloat.str returned_volume
              ++ " " ++ Py.slice None (Some 2) full)
      else ret tt
    else raise (PumpError [nm ++ ": unknown response"])
  else print ("Please wait until pump is idle." ++ newline).

Definition stop : action :=
  write "stop" ;;
  resp <- read 5 ;;
  resp <- text_of TypeError resp ;;
  addr <- gets (fun w => address (dev w)) ;;
  nm <- self_name ;;
  if negb (String.eqb (Py.slice None (Some 3) resp) (addr ++ ":")) then
    raise (PumpError [nm ++ ": unexpected response to stop"])
  else
    logging_info (nm ++ ": stopped") ;;
    modify (with_dev (set_state idle)).

Definition civolume : action := write "civolume".
Definition ctvolume : action := write "ctvolume".
Definition cwvolume : action := write "cwvolume".
Definition cvolume : action := civolume ;; cwvolume.

Definition ivolume : M string :=
  write "ivolume" ;;
  resp <- read 55 ;;
  resp <- text_of TypeError resp ;;
  match Re.search resp with
  | Some (value, volume_unit) => ret (value ++ " " ++ volume_unit)
  | None =>
      nm <- self_name ;;
      raise (PumpError [nm ++ ": Unknown answer received"])
  end.

Definition wvolume : M string :=
  write "wvolume" ;;
  resp <- read 55 ;;
  resp <- text_of TypeError resp ;;
  match Re.search resp with
  | Some (value, volume_unit) => ret (value ++ " " ++ volume_unit)
  | None =>
      nm <- self_name ;;
      raise (PumpError [nm ++ ": Unknown answer received"])
  end.

End Pump.

(** * Vocabulary of the properties *)

(** The outcome of a call that did nothing but print [text]. *)
Definition printed_only (text : string) (w : world)
    (r : outcome unit * world) : Prop :=
  fst r = Ok tt
  /\ port (snd r) = port w
  /\ dev (snd r) = dev w
  /\ threads (snd r) = threads w
  /\ events (snd r) = (events w ++ [Printed text])%list.

(** The outcome of a call that returned normally, left every attribute
    of the pump as it was, and reported [e] and nothing else. *)
Definition reported_only (e : event) (w : world)
    (r : outcome unit * world) : Prop :=
  fst r = Ok tt
  /\ dev (snd r) = dev w
  /\ threads (snd r) = threads w
  /\ events (snd r) = (events w ++ [e])%list.

(** The threads that run. *)
Definition running (w : world) : list thread := filter started (threads w).

Definition wait_idle : string := "Please wait until pump is idle." ++ newline.

Inductive rate_setter : Type := Infusion | Withdrawal.

Definition set_rate (which : rate_setter) : float -> string -> action :=
  match which with
  | Infusion => Pump.setinfusionrate
  | Withdrawal => Pump.setwithdrawrate
  end.

(** The run of [setinfusionrate] up to its comparison: both replies
    arrive, the first holds a status token, the second holds no "error"
    and a numeral with its unit, and the numeral converts to [returned]
    in the requested unit. *)
Definition irate_read_back (w : world) (flowrate : float) (unit : string)
    (returned : float) : Prop :=
  exists resp1 w1 resp2 w2 numeral volume x full,
    Pump.read 17
      (snd (Pump.write ("irate " ++ PyFloat.str flowrate ++ " " ++ unit) w))
    = (Ok (Some resp1), w1)
    /\ Py.contains ":" resp1 || Py.contains "<" resp1 || Py.contains ">" resp1
       = true
    /\ Pump.read 150 (snd (Pump.write "irate" w1)) = (Ok (Some resp2), w2)
    /\ Py.contains "error" resp2 = false
    /\ Re.search resp2 = Some (numeral, volume)
    /\ PyFloat.float_of_str numeral = Ok x
    /\ convert_str_units unit = Ok full
    /\ returned = convert_units x volume full.

(** The same for [setwithdrawrate], which finds the status token at
    index 2 and cuts the numeral and the unit out of the first line of
    the second reply. *)
Definition wrate_read_back (w : world) (flowrate : float) (unit : string)
    (returned : float) : Prop :=
  exists resp1 w1 c resp2 w2 line first x full,
    Pump.read 7
      (snd (Pump.write ("wrate " ++ PyFloat.str flowrate ++ " " ++ unit) w))
    = (Ok (Some resp1), w1)
    /\ Py.index resp1 2 = Ok c
    /\ is_status_token c = true
    /\ Pump.read 150 (snd (Pump.write "wrate" w1)) = (Ok (Some resp2), w2)
    /\ item (Py.splitlines resp2) 0 = Ok line
    /\ Py.contains "Argument error" line = false
    /\ Py.index (PyFloat.str flowrate) 0 = Ok first
    /\ PyFloat.float_of_str
         (remove_crud
            (Py.slice (Some (Py.find (String first EmptyString) line))
               (Some (Py.find "l/" line - 1)) line)) = Ok x
    /\ convert_str_units unit = Ok full
    /\ returned
       = convert_units x
           (Py.slice (Some (Py.find "l/" line - 1))
              (Some (Py.find "l/" line + 5)) line) full.

Definition read_back (which : rate_setter) :
    world -> float -> string -> float -> Prop :=
  match which with
  | Infusion => irate_read_back
  | Withdrawal => wrate_read_back
  end.

(** *** A test bench *)

Definition ultra (st : pump_state) : pump :=
  {| name := "Ultra"; address := "03"; diameter := None; flowrate := None;
     targetvolume := None; syringevolume := None; state := st |}.

(** A pump at address 3 in state [st], nothing written yet, and [replies]
    on their way. *)
Definition bench (st : pump_state) (replies : list string) : world :=
  {| dev := ultra st;
     port := {| tx := []; rx := replies |};
     events := [];
     threads := [] |}.

(** A command as it goes out: the text and a carriage return. *)
Definition frame (text : string) : string := text ++ String Py.CR EmptyString.

(** The pump is asked for 12.5 ul/min and echoes 12.4 ul/min. *)
Definition echo_12_4 : world := bench idle ["03:"; "03:12.4 ul/min"].

(** The set command is answered by seven bytes that hold no status
    token; the query that follows is answered with 5.000 ml. *)
Definition no_token_then_5ml : world := bench idle ["Argumen"; "03:5.000 ml"].

(** The run command is answered by the running status; the completion
    marker arrives later. *)
Definition run_then_marker : world := bench idle ["03>"; "03:T*"].

Definition after_irun : world :=
  {| dev := ultra infusing;
     port := {| tx := [frame "03irun"]; rx := ["03:T*"] |};
     events := [];
     threads := [{| thread_target := Waituntilfinished; started := false |}] |}.

Definition reply_with_line_feeds : string :=
  String Py.LF ("03:" ++ String Py.CR (String Py.LF EmptyString)).

(** * Vocabulary of the further properties *)

(** The outcome of a setter: the pump object is as before, or the call
    returned normally and the one attribute that [set] writes holds a
    value that compares equal to the requested one. *)
Definition stores_only (set : float -> pump -> pump) (requested : float)
    (w : world) (r : outcome unit * world) : Prop :=
  dev (snd r) = dev w
  \/ (fst r = Ok tt
      /\ exists x, PrimFloat.eqb x requested = true
                   /\ dev (snd r) = set x (dev w)).

(** The outcome of a query: one frame sent, and the pump object, the
    log and the threads as before. *)
Definition query_only {A : Type} (command : string) (w : world)
    (r : outcome A * world) : Prop :=
  tx (port (snd r)) = (tx (port w) ++ [(address (dev w) ++ frame command)%string])%list
  /\ dev (snd r) = dev w
  /\ events (snd r) = events w
  /\ threads (snd r) = threads w.

Fixpoint all_chars (p : ascii -> bool) (s : string) : bool :=
  match s with
  | EmptyString => true
  | String c rest => p c && all_chars p rest
  end.

Definition all_digits (s : string) : bool := all_chars Py.is_digit s.

(** One digit or more, a dot if any, and any further digits: the shape
    of group 1 of the pattern. *)
Definition is_numeral (s : string) : bool :=
  match Re.span_digits s with
  | (EmptyString, _) => false
  | (_, EmptyString) => true
  | (_, String "." rest) => all_digits rest
  | _ => false
  end.

Definition no_digit_ahead (s : string) : Prop :=
  match s with
  | String c _ => Py.is_digit c = false
  | EmptyString => True
  end.

Definition numeric_char (c : ascii) : bool := Py.is_digit c || Ascii.eqb c ".".

Definition is_volume_unit (u : string) : Prop := u = "ml" \/ u = "ul" \/ u = "pl".

Definition first_char (s : string) : option ascii :=
  match s with
  | String c _ => Some c
  | EmptyString => None
  end.

Fixpoint last_char (s : string) : option ascii :=
  match s with
  | EmptyString => None
  | String c EmptyString => Some c
  | String _ rest => last_char rest
  end.


(** The four queries that return a value with its unit. *)
Inductive volume_query : Type := Target | Syringe | Infused | Withdrawn.

Definition ask (q : volume_query) : M string :=
  match q with
  | Target => Pump.gettargetvolume
  | Syringe => Pump.getsyringevolume
  | Infused => Pump.ivolume
  | Withdrawn => Pump.wvolume
  end.

Definition query_command (q : volume_query) : string :=
  match q with
  | Target => "tvolume"
  | Syringe => "svolume"
  | Infused => "ivolume"
  | Withdrawn => "wvolume"
  end.

(** The outcome of [stop]: the frame is sent; then the state is idle
    and the stop is logged, or an exception is raised and the pump
    object and the log are as before. *)
Definition stop_outcome (w : world) (r : outcome unit * world) : Prop :=
  tx (port (snd r)) = (tx (port w) ++ [(address (dev w) ++ frame "stop")%string])%list
  /\ threads (snd r) = threads w
  /\ ((fst r = Ok tt
       /\ dev (snd r) = set_state idle (dev w)
       /\ events (snd r)
          = (events w ++ [LogInfo (name (dev w) ++ ": stopped")])%list)
      \/ ((exists e, fst r = Raise e)
          /\ dev (snd r) = dev w
          /\ events (snd r) = events w)).

(** The outcome of a run command that moves the state to [moving]. *)
Definition run_outcome (moving : pump_state) (w : world)
    (r : outcome unit * world) : Prop :=
  running (snd r) = running w
  /\ (dev (snd r) = dev w
      \/ (state (dev w) = idle /\ fst r = Ok tt
          /\ dev (snd r) = set_state moving (dev w)))
  /\ ((exists e, fst r = Raise e) ->
      dev (snd r) = dev w /\ threads (snd r) = threads w
      /\ events (snd r) = events w).

Definition moving (w : world) : Prop :=
  state (dev w) = infusing \/ state (dev w) = withdrawing.


(** ** Constructing a pump: [Pump.__init__]

    [int(s)] on a [str] and the format ['{0:02.0f}'] are the two Python
    conversions the probe adds to those above. *)

Module PyInt.

(** One digit or more, single underscores between digits allowed; the
    whole of the text must be used up.  [prev] tells whether the
    character before was a digit. *)
Fixpoint digits (acc : Z) (prev : bool) (s : string) : option Z :=
  match s with
  | EmptyString => if prev then Some acc else None
  | String c rest =>
      if Py.is_digit c
      then digits (10 * acc + Z.of_nat (nat_of_ascii c - 48)) true rest
      else if Ascii.eqb c "_" && prev
      then match rest with
           | String d _ => if Py.is_digit d then digits acc false rest else None
           | EmptyString => None
           end
      else None
  end.

(** [int(s)] in base 10: blanks around the text are dropped, a sign may
    lead. *)
Definition int_of_str (s : string) : outcome Z :=
  let t := Py.rstrip_if Py.is_space (Py.lstrip_if Py.is_space s) in
  let '(neg, body) :=
    match t with
    | String "-" r => (true, r)
    | String "+" r => (false, r)
    | _ => (false, t)
    end in
  match digits 0 false body with
  | Some n => Ok (if neg then - n else n)
  | None =>
      Raise (ValueError ("invalid literal for int() with base 10: " ++ Py.repr s))
  end.

End PyInt.

(** ['{0:02.0f}'.format(address)]: no decimals, and a zero in front of a
    single digit (a sign, [nan] and [inf] already fill two columns). *)
Definition format_address (address : float) : string :=
  let text := PyFloat.fixed 0 address in
  if Nat.ltb (String.length text) 2 then "0" ++ text else text.

(** What a constructor leaves behind: the pump or the exception, the
    chain, whether the chain was closed, and what was logged. *)
Record probe (P : Type) : Type :=
  { made : outcome P;
    chain_after : serial;
    closed : bool;
    logged : list event }.

Arguments made {P} _.
Arguments chain_after {P} _.
Arguments closed {P} _.
Arguments logged {P} _.

(** The object under construction.  [self.state] is [None] until the
    probe sets it and nothing reads it before; the record carries
    [idle] in its place meanwhile. *)
Definition blank (name address : string) : pump :=
  {| name := name; address := address; diameter := None; flowrate := None;
     targetvolume := None; syringevolume := None; state := idle |}.

(** The body of the [try] block: the state that the probe finds. *)
Definition Pump_probe : M pump_state :=
  Pump.write "ver" ;;
  resp <- Pump.read 17 ;;
  resp <- text_of TypeError resp ;;
  got <- lift (PyInt.int_of_str (Py.slice (Some 0) (Some 2) resp)) ;;
  addr <- gets (fun w => address (dev w)) ;;
  want <- lift (PyInt.int_of_str addr) ;;
  if negb (got =? want) then
    raise (PumpError ["No response from pump at address " ++ addr])
  else
    c <- lift (Py.index resp 2) ;;
    if Ascii.eqb c ":" then ret idle
    else if Ascii.eqb c ">" then ret infusing
    else if Ascii.eqb c "<" then ret withdrawing
    else
      nm <- Pump.self_name ;;
      raise (PumpError [nm ++ ": Unknown state encountered"]).

(** [Pump(chain, address, name)]; [port_name] is [chain.port].  Only
    [PumpError] is caught, to close the chain before it is raised
    again. *)
Definition Pump_init (chain : serial) (port_name : string) (address : float)
    (name : string) : probe pump :=
  let self := blank name (format_address address) in
  let w := {| dev := self; port := chain; events := []; threads := [] |} in
  match Pump_probe w with
  | (Ok st, w') =>
      {| made := Ok (set_state st (dev w'));
         chain_after := port w';
         closed := false;
         logged := [LogInfo (name ++ ": created at address "
                               ++ format_address address ++ " on " ++ port_name)] |}
  | (Raise (PumpError args), w') =>
      {| made := Raise (PumpError args);
         chain_after := port w';
         closed := true;
         logged := [] |}
  | (Raise e, w') =>
      {| made := Raise e; chain_after := port w'; closed := false; logged := [] |}
  end.

(** The float of a small natural number (an address given as an
    [int]). *)
Definition float_of_nat (n : nat) : float :=
  PrimFloat.of_uint63 (Uint63.of_Z (Z.of_nat n)).

(** ** class Pump2000

    The single-unit pump has a fourth state and a [rate_units] attribute
    of its own, so it gets its own object and world; [write] and [read]
    are the methods it inherits from [Pump], over that world. *)

(** The first match of a numeral alone (the pattern of the queries of
    [Pump2000]): digits, a dot if one follows, and the digits after
    it. *)
Definition numeral_here (s : string) : option string :=
  let '(whole, r1) := Re.span_digits s in
  match whole with
  | EmptyString => None
  | _ =>
      let '(dot, r2) :=
        match r1 with
        | String "." r => (".", r)
        | _ => ("", r1)
        end in
      let '(frac, _) := Re.span_digits r2 in
      Some (whole ++ dot ++ frac)
  end.

Fixpoint search_numeral (s : string) : option string :=
  match numeral_here s with
  | Some n => Some n
  | None =>
      match s with
      | EmptyString => None
      | String _ rest => search_numeral rest
      end
  end.

Fixpoint spaces (n : nat) : string :=
  match n with
  | O => EmptyString
  | S k => String " " (spaces k)
  end.

(** ["%<width>.<places>f" % x]: blanks in front up to the width. *)
Definition percent_f (width places : nat) (x : float) : string :=
  let text := PyFloat.fixed places x in
  spaces (width - String.length text) ++ text.

Module Pump2000.

(** [self.state]: ['idle'], ['infusing'], ['withdrawing'], ['stalled']. *)
Inductive status : Type := Idle | Infusing | Withdrawing | Stalled.

Definition status_eqb (a b : status) : bool :=
  match a, b with
  | Idle, Idle | Infusing, Infusing | Withdrawing, Withdrawing
  | Stalled, Stalled => true
  | _, _ => false
  end.

(** The attributes of a [Pump2000] object; [state] is [None] until the
    probe sets it, and [rate_units] exists once [set_rate] has stored
    it. *)
Record self : Type :=
  { name : string;
    address : string;
    diameter : option float;
    flowrate : option float;
    targetvolume : option float;
    state : option status;
    rate_units : option string }.

Record world : Type :=
  { dev : self;
    port : serial;
    events : list event }.

Definition with_port (p : serial) (w : world) : world :=
  {| dev := dev w; port := p; events := events w |}.

Definition set_state (s : status) (w : world) : world :=
  {| dev := {| name := name (dev w); address := address (dev w);
               diameter := diameter (dev w); flowrate := flowrate (dev w);
               targetvolume := targetvolume (dev w); state := Some s;
               rate_units := rate_units (dev w) |};
     port := port w; events := events w |}.

Definition set_rate_units (u : string) (w : world) : world :=
  {| dev := {| name := name (dev w); address := address (dev w);
               diameter := diameter (dev w); flowrate := flowrate (dev w);
               targetvolume := targetvolume (dev w); state := state (dev w);
               rate_units := Some u |};
     port := port w; events := events w |}.

Definition M (A : Type) : Type := world -> outcome A * world.

Definition ret {A} (a : A) : M A := fun w => (Ok a, w).
Definition raise {A} (e : exn) : M A := fun w => (Raise e, w).
Definition bind {A B} (c : M A) (k : A -> M B) : M B :=
  fun w =>
    match c w with
    | (Ok a, w') => k a w'
    | (Raise e, w') => (Raise e, w')
    end.
Definition lift {A} (o : outcome A) : M A := fun w => (o, w).
Definition gets {A} (f : world -> A) : M A := fun w => (Ok (f w), w).
Definition modify (f : world -> world) : M unit := fun w => (Ok tt, f w).

Declare Scope phd_scope.
Delimit Scope phd_scope with phd.

Notation "x <- c ;; k" := (bind c (fun x => k))
  (at level 61, c at next level, right associativity) : phd_scope.
Notation "c ;; k" := (bind c (fun _ => k))
  (at level 61, right associativity) : phd_scope.

Local Open Scope phd_scope.

Definition action : Type := M unit.

Definition self_name : M string := gets (fun w => name (dev w)).

Definition state_is (s : status) : M bool :=
  gets (fun w => match state (dev w) with
                 | Some t => status_eqb t s
                 | None => false
                 end).

(** [Pump.write] and [Pump.read], inherited. *)
Definition write (command : string) : action :=
  fun w =>
    (Ok tt,
     with_port
       (serial_write (address (dev w) ++ command ++ String Py.CR EmptyString)
          (port w)) w).

Definition read (bytes : nat) : M (option string) :=
  fun w =>
    let '(response, p) := serial_read bytes (port w) in
    if Nat.eqb (String.length response) 0 then (Ok None, with_port p w)
    else
      match decode response with
      | Ok response =>
          let response := Py.remove_char Py.LF response in
          (Ok (Some response), with_port p w)
      | Raise e => (Raise e, with_port p w)
      end.

Definition text_of (e : exn) (resp : option string) : M string :=
  match resp with
  | Some s => ret s
  | None => raise e
  end.

Definition _errorcheck (resp : option string) : action :=
  resp <- text_of TypeError resp ;;
  c <- lift (Py.index resp (-1)) ;;
  if Ascii.eqb c ":" then modify (set_state Idle)
  else if Ascii.eqb c ">" then modify (set_state Infusing)
  else if Ascii.eqb c "<" then modify (set_state Withdrawing)
  else if Ascii.eqb c "*" then modify (set_state Stalled)
  else
    nm <- self_name ;;
    raise (PumpError [nm ++ ": Unknown state encountered"]).

(** The poller of this class: one round reads five bytes and looks for
    the star; a [None] reply searched for it or an undecodable byte is
    swallowed by the bare [except], and the next round follows. *)
Fixpoint waituntilfinished (fuel : nat) (w : world) : Pump.polled * world :=
  match fuel with
  | O => (Pump.Still_polling, w)
  | S fuel' =>
      match state (dev w) with
      | Some Infusing | Some Withdrawing =>
          match read 5 w with
          | (Ok (Some resp), w') =>
              if Py.contains "*" resp
              then (Pump.Finished, set_state Idle w')
              else waituntilfinished fuel' w'
          | (_, w') => waituntilfinished fuel' w'
          end
      | _ => (Pump.Left_loop, w)
      end
  end.

Definition run : action :=
  write "RUN" ;;
  resp <- read 17 ;;
  _errorcheck resp ;;
  modify (set_state Infusing).

Definition rev : action :=
  write "REV" ;;
  resp <- read 17 ;;
  _errorcheck resp ;;
  modify (set_state Withdrawing).

(** [sleep(0.1)] passes time and nothing else. *)
Definition sleep : action := ret tt.

Definition stop : action :=
  write "STP" ;;
  resp <- read 17 ;;
  _errorcheck resp ;;
  sleep ;;
  infusing <- state_is Infusing ;;
  withdrawing <- state_is Withdrawing ;;
  if infusing || withdrawing then
    nm <- self_name ;;
    raise (PumpError [nm ++ ": Pump could not be stopped."])
  else ret tt.

Definition infuse : action :=
  run ;;
  withdrawing <- state_is Withdrawing ;;
  if withdrawing then stop ;; rev else ret tt.

Definition withdraw : action :=
  rev ;;
  infusing <- state_is Infusing ;;
  if infusing then stop ;; run else ret tt.

Definition clear_accumulated_volume : action :=
  write "CLV" ;;
  resp <- read 17 ;;
  _errorcheck resp.

Definition clear_target_volume : action :=
  write "CLT" ;;
  resp <- read 17 ;;
  _errorcheck resp.

(** The exchange that ends [set_rate]. *)
Definition send_rate (write_str flowrate_str : string) : action :=
  write (write_str ++ flowrate_str) ;;
  resp <- read 17 ;;
  _errorcheck resp.

Definition set_rate (flowrate : float) (units : string) : action :=
  let flowrate_str := percent_f 4 4 flowrate in
  if String.eqb units "m/m" then send_rate "MLM" flowrate_str
  else if String.eqb units "u/m" then send_rate "ULM" flowrate_str
  else if String.eqb units "m/h" then
    modify (set_rate_units "ml/h") ;;
    send_rate "MLH" flowrate_str
  else if String.eqb units "u/h" then send_rate "ULH" flowrate_str
  else
    nm <- self_name ;;
    raise (PumpError [nm ++ ": Unknown unit specified"]).

Definition setdiameter (diameter : float) : action :=
  write ("MMD" ++ PyFloat.str diameter) ;;
  resp <- read 17 ;;
  _errorcheck resp.

Definition settargetvolume (volume : float) : action :=
  write ("MLT" ++ PyFloat.str volume) ;;
  resp <- read 17 ;;
  _errorcheck resp.

(** The queries: the first numeral of the reply, with its unit. *)
Definition getdiameter : M string :=
  write "DIA" ;;
  resp <- read 17 ;;
  _errorcheck resp ;;
  resp <- text_of TypeError resp ;;
  match search_numeral resp with
  | Some numeral => ret (numeral ++ " mm")
  | None =>
      nm <- self_name ;;
      raise (PumpError [nm ++ ": Unknown answer received"])
  end.


Definition ivolume : M string :=
  write "VOL" ;;
  resp <- read 17 ;;
  _errorcheck resp ;;
  resp <- text_of TypeError resp ;;
  match search_numeral resp with
  | Some numeral => ret (numeral ++ " " ++ "ml")
  | None =>
      nm <- self_name ;;
      raise (PumpError [nm ++ ": Unknown answer received"])
  end.

Definition gettargetvolume : M string :=
  write "TAR" ;;
  resp <- read 17 ;;
  _errorcheck resp ;;
  resp <- text_of TypeError resp ;;
  match search_numeral resp with
  | Some numeral => ret (numeral ++ " " ++ "ml")
  | None =>
      nm <- self_name ;;
      raise (PumpError [nm ++ ": Unknown answer received"])
  end.

(** The body of the [try] block of [Pump2000.__init__]. *)
Definition probe_body : action :=
  write "VER" ;;
  resp <- read 17 ;;
  resp <- text_of TypeError resp ;;
  addr <- gets (fun w => address (dev w)) ;;
  if negb (Py.contains "PHD" resp) then
    raise (PumpError ["No response from pump at address " ++ addr])
  else
    c <- lift (Py.index resp (-1)) ;;
    if Ascii.eqb c ":" then modify (set_state Idle)
    else if Ascii.eqb c ">" then modify (set_state Infusing)
    else if Ascii.eqb c "<" then modify (set_state Withdrawing)
    else if Ascii.eqb c "*" then modify (set_state Stalled)
    else
      nm <- self_name ;;
      raise (PumpError [nm ++ ": Unknown state encountered"]).

(** [Pump2000(chain, address, name)]; [port_name] is [chain.port]. *)
Definition init (chain : serial) (port_name : string) (address : float)
    (name : string) : probe self :=
  let w :=
    {| dev := {| name := name; address := format_address address;
                 diameter := None; flowrate := None; targetvolume := None;
                 state := None; rate_units := None |};
       port := chain;
       events := [] |} in
  match probe_body w with
  | (Ok _, w') =>
      {| made := Ok (dev w');
         chain_after := port w';
         closed := false;
         logged := [LogInfo (name ++ ": created at address "
                               ++ format_address address ++ " on " ++ port_name)] |}
  | (Raise (PumpError args), w') =>
      {| made := Raise (PumpError args);
         chain_after := port w';
         closed := true;
         logged := [] |}
  | (Raise e, w') =>
      {| made := Raise e; chain_after := port w'; closed := false; logged := [] |}
  end.

End Pump2000.

(** *** Vocabulary for [Pump2000] *)

(** The state that a status character stands for. *)
Definition status_of (c : ascii) : option Pump2000.status :=
  if Ascii.eqb c ":" then Some Pump2000.Idle
  else if Ascii.eqb c ">" then Some Pump2000.Infusing
  else if Ascii.eqb c "<" then Some Pump2000.Withdrawing
  else if Ascii.eqb c "*" then Some Pump2000.Stalled
  else None.

(** The settings of a [Pump2000] object: all of it but the state and the
    rate units. *)
Definition same_settings (a b : Pump2000.self) : Prop :=
  Pump2000.name a = Pump2000.name b
  /\ Pump2000.address a = Pump2000.address b
  /\ Pump2000.diameter a = Pump2000.diameter b
  /\ Pump2000.flowrate a = Pump2000.flowrate b
  /\ Pump2000.targetvolume a = Pump2000.targetvolume b.

(** What every method of [Pump2000] keeps: the settings, the log, and
    the frames already sent. *)
Definition phd_keeps {A : Type} (w : Pump2000.world)
    (r : outcome A * Pump2000.world) : Prop :=
  same_settings (Pump2000.dev (snd r)) (Pump2000.dev w)
  /\ Pump2000.events (snd r) = Pump2000.events w
  /\ exists sent, tx (Pump2000.port (snd r)) = (tx (Pump2000.port w) ++ sent)%list.

(** The mnemonic of a rate unit. *)
Definition rate_mnemonic (units : string) : option string :=
  if String.eqb units "m/m" then Some "MLM"
  else if String.eqb units "u/m" then Some "ULM"
  else if String.eqb units "m/h" then Some "MLH"
  else if String.eqb units "u/h" then Some "ULH"
  else None.

(** A pump of this class on the bench. *)
Definition phd_bench (st : Pump2000.status) (replies : list string) :
    Pump2000.world :=
  {| Pump2000.dev :=
       {| Pump2000.name := "PhD2000"; Pump2000.address := "00";
          Pump2000.diameter := None; Pump2000.flowrate := None;
          Pump2000.targetvolume := None; Pump2000.state := Some st;
          Pump2000.rate_units := None |};
     Pump2000.port := {| tx := []; rx := replies |};
     Pump2000.events := [] |}.





(** The commands of [Pump2000] that send one frame and check the
    status of the reply, with the text they send. *)
Inductive phd_command_call : Type :=
  | Run | Rev | Stop | ClearVolume | ClearTarget
  | SetDiameter (diameter : float) | SetTargetVolume (volume : float).

Definition phd_call (c : phd_command_call) : Pump2000.action :=
  match c with
  | Run => Pump2000.run
  | Rev => Pump2000.rev
  | Stop => Pump2000.stop
  | ClearVolume => Pump2000.clear_accumulated_volume
  | ClearTarget => Pump2000.clear_target_volume
  | SetDiameter d => Pump2000.setdiameter d
  | SetTargetVolume v => Pump2000.settargetvolume v
  end.

Definition phd_text (c : phd_command_call) : string :=
  match c with
  | Run => "RUN"
  | Rev => "REV"
  | Stop => "STP"
  | ClearVolume => "CLV"
  | ClearTarget => "CLT"
  | SetDiameter d => "MMD" ++ PyFloat.str d
  | SetTargetVolume v => "MLT" ++ PyFloat.str v
  end.


(** A pump of this class that is running. *)
Definition phd_moving (w : Pump2000.world) : Prop :=
  Pump2000.state (Pump2000.dev w) = Some Pump2000.Infusing
  \/ Pump2000.state (Pump2000.dev w) = Some Pump2000.Withdrawing.

(** * Properties *)

(** Two float constants with different binary expansions are different. *)
Ltac float_neq :=
  let H := fresh "H" in
  intro H; apply (f_equal Prim2SF) in H; vm_compute in H; discriminate H.

(** ** Unit conversion *)

Section ConvertUnits.

Local Open Scope float_scope.

Lemma whole_hor_has_suffix_hor (fromUnit : string) :
  time_suffix fromUnit <> "hor" -> String.eqb fromUnit "hor" = false.
Proof.
  intros Hsuffix. destruct (String.eqb_spec fromUnit "hor") as [-> | _].
  - exfalso. apply Hsuffix. reflexivity.
  - reflexivity.
Qed.

(** The from-side time factor is the reciprocal of the table entry. *)
Lemma time_factor_from_table (whole suffix : string) :
  suffix <> "hor" -> String.eqb whole "hor" = false ->
  (if String.eqb suffix "sec" then 60
   else if String.eqb whole "hor" then 1 / 60 else 1)
  = 1 / time_table suffix.
Proof.
  intros Hsuffix ->. unfold time_table.
  destruct (String.eqb_spec suffix "sec"); [reflexivity |].
  destruct (String.eqb_spec suffix "min"); [reflexivity |].
  destruct (String.eqb_spec suffix "hor"); [contradiction | reflexivity].
Qed.

Lemma time_factor_to_table (suffix : string) :
  (if String.eqb suffix "sec" then 1 / 60
   else if String.eqb suffix "hor" then 60 else 1)
  = time_table suffix.
Proof.
  unfold time_table.
  destruct (String.eqb_spec suffix "sec") as [-> | _]; [reflexivity |].
  destruct (String.eqb_spec suffix "min") as [-> | _]; [reflexivity |].
  destruct (String.eqb_spec suffix "hor"); reflexivity.
Qed.

Lemma vol_factor_from_table (prefix : string) :
  (if String.eqb prefix "ml" then 1000
   else if String.eqb prefix "nl" then 1 / 1000
   else if String.eqb prefix "pl" then 1 / 1e6 else 1)
  = vol_table prefix.
Proof.
  unfold vol_table.
  destruct (String.eqb_spec prefix "ml") as [-> | _]; [reflexivity |].
  destruct (String.eqb_spec prefix "ul") as [-> | _]; [reflexivity |].
  destruct (String.eqb_spec prefix "nl") as [-> | _]; [reflexivity |].
  destruct (String.eqb_spec prefix "pl"); reflexivity.
Qed.

(** The to-side volume factor is the reciprocal of the table entry. *)
Lemma vol_factor_to_table (prefix : string) :
  (if String.eqb prefix "ml" then 1 / 1000
   else if String.eqb prefix "nl" then 1000
   else if String.eqb prefix "pl" then 1e6 else 1)
  = 1 / vol_table prefix.
Proof.
  unfold vol_table.
  destruct (String.eqb_spec prefix "ml") as [-> | _]; [reflexivity |].
  destruct (String.eqb_spec prefix "ul") as [-> | _]; [reflexivity |].
  destruct (String.eqb_spec prefix "nl") as [-> | _]; [reflexivity |].
  destruct (String.eqb_spec prefix "pl"); reflexivity.
Qed.

(** C1, as the specification states it, fails.  A rate per second is
    multiplied by 60 on its way to a rate per minute, where the ratio of
    the time table entries is 1/60; and the four factors are multiplied
    in one after the other, each product rounded, which differs from
    the product of the two ratios even where the time units agree. *)
Lemma convert_units_by_tables_counterexample :
  convert_units 1 "ul/sec" "ul/min" = 60 /\
  convert_by_tables 1 "ul/sec" "ul/min" = 1 / 60 /\
  convert_units 1 "ul/sec" "ul/min" <> convert_by_tables 1 "ul/sec" "ul/min" /\
  convert_units 0.1 "nl/min" "pl/min" = 100 /\
  convert_units 0.1 "nl/min" "pl/min" <> convert_by_tables 0.1 "nl/min" "pl/min".
Proof.
  repeat split; try reflexivity; vm_compute; float_neq.
Qed.

(** C1, amended: for every value and every pair of unit strings of
    which the first does not end in "hor", [convert_units] is the value
    multiplied in turn by the reciprocal of the time factor of the first
    unit, the time factor of the second, the volume factor of the first
    and the reciprocal of the volume factor of the second; volume
    factors are looked up by the two-character prefix in ml:1000, ul:1,
    nl:1/1000, pl:1/1e6, time factors by the three-character suffix in
    sec:1/60, min:1, hor:60, and anything unrecognized counts for 1. *)
Theorem convert_units_factor_tables (val : float) (fromUnit toUnit : string) :
  time_suffix fromUnit <> "hor" ->
  convert_units val fromUnit toUnit
  = val * (1 / time_table (time_suffix fromUnit))
        * time_table (time_suffix toUnit)
        * vol_table (volume_prefix fromUnit)
        * (1 / vol_table (volume_prefix toUnit)).
Proof.
  intros Hsuffix. unfold convert_units.
  fold (time_suffix fromUnit) (time_suffix toUnit)
       (volume_prefix fromUnit) (volume_prefix toUnit).
  rewrite (time_factor_from_table fromUnit (time_suffix fromUnit) Hsuffix
             (whole_hor_has_suffix_hor fromUnit Hsuffix)).
  rewrite time_factor_to_table, vol_factor_from_table, vol_factor_to_table.
  reflexivity.
Qed.

Lemma convert_units_factor_tables_witness :
  convert_units 12.5 "ml/sec" "nl/hor"
  = 12.5 * (1 / time_table (time_suffix "ml/sec"))
         * time_table (time_suffix "nl/hor")
         * vol_table (volume_prefix "ml/sec")
         * (1 / vol_table (volume_prefix "nl/hor")).
Proof.
  apply (convert_units_factor_tables 12.5 "ml/sec" "nl/hor").
  vm_compute. discriminate.
Defined.

(** C2 fails on the code: a round trip through a unit per hour does not
    give the value back.  Converting 1 ul/hor to ul/min leaves it at 1
    (the from-side test compares the whole unit string with "hor"), and
    converting back multiplies by 60. *)
Theorem convert_units_round_trip_hor :
  convert_units 1 "ul/hor" "ul/min" = 1 /\
  convert_units (convert_units 1 "ul/hor" "ul/min") "ul/min" "ul/hor" = 60.
Proof. split; reflexivity. Qed.

(** Without an hour unit the same round trip does return the value. *)
Example convert_units_round_trip_sec :
  convert_units (convert_units 12.5 "ml/sec" "ul/min") "ul/min" "ml/sec" = 12.5.
Proof. reflexivity. Qed.

End ConvertUnits.

(** ** Response normalizer *)

(** C3 on the code: of the three examples only the last holds.  A
    trailing space shields the zeros after the decimal point, and a
    lone zero before the point is stripped as a leading zero. *)
Theorem remove_crud_examples :
  remove_crud "00012.500 " = "12.500" /\
  remove_crud "0.0" = "" /\
  remove_crud "   7.00" = "7".
Proof. repeat split; reflexivity. Qed.

(** ** The device protocol engine *)

Create HintDb pump_monad.

#[local] Hint Unfold bind gets Pump.self_state Pump.self_name : pump_monad.

(** Enter the body of a method that is guarded by [self.state == 'idle'],
    knowing from [H] what the state is. *)
Ltac enter_guard H :=
  autounfold with pump_monad; rewrite H; cbn [pump_state_eqb].

Section Frames.

(** What writing and reading leave alone. *)
Lemma write_frame (command : string) (w : world) :
  Pump.write command w
  = (Ok tt, with_port (serial_write (address (dev w) ++ frame command) (port w)) w).
Proof. reflexivity. Qed.

Lemma read_keeps (bytes : nat) (w w' : world) (r : outcome (option string)) :
  Pump.read bytes w = (r, w') ->
  dev w' = dev w /\ events w' = events w /\ threads w' = threads w
  /\ tx (port w') = tx (port w).
Proof.
  unfold Pump.read, serial_read. intros H.
  destruct (rx (port w)) as [| chunk later].
  - cbn in H. inversion H; subst. cbn. auto.
  - destruct (Nat.eqb _ 0); [| destruct (decode _)];
      inversion H; subst; cbn; auto.
Qed.

(** A command and its reply, twice over, touch the port only. *)
Lemma exchange_keeps (c1 c2 : string) (n1 n2 : nat) (w w1 w2 : world)
    (r1 r2 : outcome (option string)) :
  Pump.read n1 (snd (Pump.write c1 w)) = (r1, w1) ->
  Pump.read n2 (snd (Pump.write c2 w1)) = (r2, w2) ->
  dev w2 = dev w /\ events w2 = events w /\ threads w2 = threads w.
Proof.
  intros H1 H2.
  apply read_keeps in H1 as (D1 & E1 & T1 & _).
  apply read_keeps in H2 as (D2 & E2 & T2 & _).
  cbn in *. repeat split; congruence.
Qed.

Lemma serial_read_after_write (size : nat) (sent : string) (p : serial) :
  serial_read size (serial_write sent p)
  = (fst (serial_read size p), serial_write sent (snd (serial_read size p))).
Proof.
  destruct p as [sent_before [| chunk later]]; reflexivity.
Qed.

Lemma not_idle (s : pump_state) : s <> idle -> pump_state_eqb s idle = false.
Proof. destruct s; intros H; [contradiction | reflexivity | reflexivity]. Qed.

(** [replace] with the empty string leaves no occurrence behind. *)
Lemma remove_char_removes (c : ascii) (s : string) :
  Py.mem c (Py.remove_char c s) = false.
Proof.
  induction s as [| d rest IH]; cbn; [reflexivity |].
  destruct (Ascii.eqb c d) eqn:E; [exact IH |].
  cbn. rewrite E. exact IH.
Qed.

Lemma nonempty_length (s : string) :
  s <> EmptyString -> Nat.eqb (String.length s) 0 = false.
Proof. destruct s; [contradiction | reflexivity]. Qed.

End Frames.

(** *** The guard on the state *)

(** C4: while the pump is not idle, each of the five setters and both run
    commands returns normally having only printed its message: nothing is
    written to the port, nothing is read from it, and no attribute of the
    pump changes. *)
Theorem busy_guard_is_no_op (w : world) (x : float) (unit : string) :
  state (dev w) <> idle ->
  printed_only wait_idle w (Pump.setdiameter x w)
  /\ printed_only wait_idle w (Pump.setinfusionrate x unit w)
  /\ printed_only wait_idle w (Pump.setwithdrawrate x unit w)
  /\ printed_only wait_idle w (Pump.settargetvolume x unit w)
  /\ printed_only wait_idle w (Pump.setsyringevolume x unit w)
  /\ printed_only
       ("Please wait until the pump is idle before infusing." ++ newline) w
       (Pump.infuse w)
  /\ printed_only
       ("Please wait until the pump is idle before withdrawing." ++ newline) w
       (Pump.withdraw w).
Proof.
  intros Hbusy. apply not_idle in Hbusy.
  unfold Pump.setdiameter, Pump.setinfusionrate, Pump.setwithdrawrate,
    Pump.settargetvolume, Pump.setsyringevolume, Pump.infuse, Pump.withdraw.
  enter_guard Hbusy.
  repeat split; reflexivity.
Qed.

Lemma busy_guard_is_no_op_witness :
  printed_only wait_idle (bench infusing ["03>"])
    (Pump.setdiameter 10 (bench infusing ["03>"]))
  /\ printed_only wait_idle (bench infusing ["03>"])
       (Pump.setinfusionrate 10 "u/m" (bench infusing ["03>"]))
  /\ printed_only wait_idle (bench infusing ["03>"])
       (Pump.setwithdrawrate 10 "u/m" (bench infusing ["03>"]))
  /\ printed_only wait_idle (bench infusing ["03>"])
       (Pump.settargetvolume 10 "u/m" (bench infusing ["03>"]))
  /\ printed_only wait_idle (bench infusing ["03>"])
       (Pump.setsyringevolume 10 "u/m" (bench infusing ["03>"]))
  /\ printed_only
       ("Please wait until the pump is idle before infusing." ++ newline)
       (bench infusing ["03>"]) (Pump.infuse (bench infusing ["03>"]))
  /\ printed_only
       ("Please wait until the pump is idle before withdrawing." ++ newline)
       (bench infusing ["03>"]) (Pump.withdraw (bench infusing ["03>"])).
Proof.
  apply (busy_guard_is_no_op (bench infusing ["03>"]) 10 "u/m").
  discriminate.
Defined.

(** *** The range of the diameter *)

(** C6: on an idle pump, a diameter above 35 or below 0.1 makes
    [setdiameter] raise [PumpError] and leaves the world as it was: no
    frame written, no reply read, no attribute changed. *)
Theorem setdiameter_out_of_range (w : world) (diameter : float) :
  state (dev w) = idle ->
  PrimFloat.ltb 35 diameter = true \/ PrimFloat.ltb diameter 0.1 = true ->
  Pump.setdiameter diameter w
  = (Raise (PumpError [name (dev w) ++ ": diameter " ++ PyFloat.str diameter
                         ++ " mm is out of range"]), w).
Proof.
  intros Hidle Hrange. unfold Pump.setdiameter. enter_guard Hidle.
  destruct Hrange as [-> | ->]; [| rewrite orb_true_r]; reflexivity.
Qed.

Lemma setdiameter_out_of_range_witness :
  Pump.setdiameter 40 (bench idle ["03:"])
  = (Raise (PumpError [name (dev (bench idle ["03:"])) ++ ": diameter "
                         ++ PyFloat.str 40 ++ " mm is out of range"]),
     bench idle ["03:"]).
Proof.
  apply (setdiameter_out_of_range (bench idle ["03:"]) 40).
  - reflexivity.
  - left. reflexivity.
Defined.

(** An in-range diameter goes out as the address, the command and the
    diameter formatted with two decimals, whatever the pump replies. *)
Lemma setdiameter_on_the_wire (w : world) (diameter : float) :
  state (dev w) = idle ->
  PrimFloat.ltb 35 diameter = false ->
  PrimFloat.ltb diameter 0.1 = false ->
  exists more,
    tx (port (snd (Pump.setdiameter diameter w)))
    = (tx (port w)
       ++ [(address (dev w)
              ++ frame ("diameter " ++ PyFloat.fixed 2 diameter))%string]
       ++ more)%list.
Proof.
  intros Hidle Hhigh Hlow. unfold Pump.setdiameter. enter_guard Hidle.
  rewrite Hhigh, Hlow. cbn [orb]. rewrite write_frame.
  destruct (Pump.read 80 _) as [[[resp |] | e] w1] eqn:R1;
    apply read_keeps in R1 as (D1 & _ & _ & T1); cbn in T1;
    try (exists []; cbn; rewrite T1; reflexivity).
  cbn [text_of ret]. unfold lift.
  destruct (item _ (-1)) as [last_line | e];
    [| exists []; cbn; rewrite T1; reflexivity].
  destruct (Py.index last_line 2) as [c | e];
    [| exists []; cbn; rewrite T1; reflexivity].
  destruct (is_status_token c);
    [| exists []; cbn; rewrite T1; reflexivity].
  rewrite write_frame.
  destruct (Pump.read 45 _) as [[[resp2 |] | e] w2] eqn:R2;
    apply read_keeps in R2 as (_ & _ & _ & T2); cbn in T2;
    try (eexists; cbn; rewrite T2, T1, <- app_assoc; reflexivity).
  cbn [text_of ret].
  destruct (PyFloat.float_of_str _) as [x | e];
    [| eexists; cbn; rewrite T2, T1, <- app_assoc; reflexivity].
  destruct (py_ne x diameter);
    [eexists; cbn; rewrite T2, T1, <- app_assoc; reflexivity |].
  destruct (PrimFloat.eqb x diameter);
    eexists; cbn; rewrite T2, T1, <- app_assoc; reflexivity.
Qed.

(** C9 fails on the code: the diameter is formatted with two decimals
    by rounding.  1.239 goes out as 1.24, where truncation gives 1.23. *)
Theorem setdiameter_rounds_on_the_wire :
  PyFloat.fixed 2 1.239 = "1.24"
  /\ tx (port (snd (Pump.setdiameter 1.239 (bench idle ["03:"; "03:1.2400"]))))
     = [frame "03diameter 1.24"; frame "03diameter"].
Proof. split; vm_compute; reflexivity. Qed.

(** *** Set-then-verify *)

(** C5: when an idle pump is sent a rate and the value read back,
    converted to the requested unit, differs from the requested one,
    either rate setter returns normally, leaves [flowrate] and every
    other attribute as it was, and reports the mismatch as one
    [logging.error] record. *)
Theorem rate_mismatch_is_logged (which : rate_setter) (w : world)
    (flowrate returned : float) (unit : string) :
  state (dev w) = idle ->
  read_back which w flowrate unit returned ->
  py_ne returned flowrate = true ->
  reported_only
    (LogError (Pump.flowrate_mismatch (name (dev w)) flowrate unit returned))
    w (set_rate which flowrate unit w).
Proof.
  intros Hidle Hback Hne. destruct which; cbn [read_back set_rate] in *.
  - destruct Hback as (resp1 & w1 & resp2 & w2 & numeral & volume & x & full
                       & R1 & Tok & R2 & Err & Found & Num & Unit & ->).
    destruct (exchange_keeps _ _ _ _ _ _ _ _ _ R1 R2) as (D & E & T).
    unfold Pump.setinfusionrate. enter_guard Hidle.
    rewrite write_frame in *. cbn [snd] in *.
    rewrite R1. cbn [text_of ret]. rewrite Tok.
    rewrite write_frame in *. cbn [snd] in *. rewrite R2.
    cbn [text_of ret]. rewrite Err, Found.
    unfold lift. rewrite Num, Unit, Hne.
    unfold reported_only, logging_error, modify, emit.
    cbn [fst snd dev events threads]. rewrite D, E, T. auto.
  - destruct Hback as (resp1 & w1 & c & resp2 & w2 & line & first & x & full
                       & R1 & Idx & Tok & R2 & Line & Err & First & Num & Unit
                       & ->).
    destruct (exchange_keeps _ _ _ _ _ _ _ _ _ R1 R2) as (D & E & T).
    unfold Pump.setwithdrawrate. enter_guard Hidle.
    rewrite write_frame in *. cbn [snd] in *.
    rewrite R1. cbn [text_of ret]. unfold lift. rewrite Idx, Tok.
    rewrite write_frame in *. cbn [snd] in *. rewrite R2.
    cbn [text_of ret]. rewrite Line, Err, First, Num, Unit, Hne.
    unfold reported_only, logging_error, modify, emit.
    cbn [fst snd dev events threads]. rewrite D, E, T. auto.
Qed.

Lemma rate_mismatch_is_logged_witness :
  reported_only
    (LogError (Pump.flowrate_mismatch (name (dev echo_12_4)) 12.5 "u/m" 12.4))
    echo_12_4 (set_rate Infusion 12.5 "u/m" echo_12_4)
  /\ reported_only
       (LogError (Pump.flowrate_mismatch (name (dev echo_12_4)) 12.5 "u/m" 12.4))
       echo_12_4 (set_rate Withdrawal 12.5 "u/m" echo_12_4).
Proof.
  split.
  - apply (rate_mismatch_is_logged Infusion echo_12_4 12.5 12.4 "u/m").
    + reflexivity.
    + cbn [read_back]. unfold irate_read_back.
      do 8 eexists.
      repeat (split; [vm_compute; reflexivity |]).
      vm_compute; reflexivity.
    + reflexivity.
  - apply (rate_mismatch_is_logged Withdrawal echo_12_4 12.5 12.4 "u/m").
    + reflexivity.
    + cbn [read_back]. unfold wrate_read_back.
      do 9 eexists.
      repeat (split; [vm_compute; reflexivity |]).
      vm_compute; reflexivity.
    + reflexivity.
Defined.

(** The other side of the comparison: an echo of the requested rate is
    stored. *)
Example rate_match_is_stored :
  flowrate (dev (snd (Pump.setinfusionrate 12.5 "u/m"
                        (bench idle ["03:"; "03:12.5 ul/min"]))))
  = Some 12.5%float.
Proof. vm_compute. reflexivity. Qed.

(** C7 fails on the code for [settargetvolume]: its confirmation reply is
    read and never looked at, so a reply without a status token is
    followed by the query and the value is stored, where
    [setinfusionrate] given the same replies raises [PumpError]. *)
Theorem settargetvolume_ignores_confirmation :
  Pump.settargetvolume 5 "m" no_token_then_5ml
  = (Ok tt,
     {| dev := set_targetvolume 5 (ultra idle);
        port := {| tx := [frame "03tvolume 5.0 m"; frame "03tvolume"]; rx := [] |};
        events := [LogInfo "Ultra: target volume set to 5.0 ml"];
        threads := [] |})
  /\ Pump.setinfusionrate 5 "m/m" no_token_then_5ml
     = (Raise (PumpError ["Ultra: unknown response"]),
        {| dev := ultra idle;
           port := {| tx := [frame "03irate 5.0 m/m"]; rx := ["03:5.000 ml"] |};
           events := [];
           threads := [] |}).
Proof. split; vm_compute; reflexivity. Qed.

(** *** Starting a run *)

(** Whatever the pump replies, [infuse] and [withdraw] leave the set of
    running threads as it was. *)
Lemma run_commands_start_no_thread (w : world) :
  running (snd (Pump.infuse w)) = running w
  /\ running (snd (Pump.withdraw w)) = running w.
Proof.
  unfold running, Pump.infuse, Pump.withdraw. autounfold with pump_monad.
  destruct (pump_state_eqb (state (dev w)) idle); [| split; cbn; reflexivity].
  rewrite !write_frame. split.
  - destruct (Pump.read 55 _) as [[[resp |] | e] w1] eqn:R;
      apply read_keeps in R as (_ & _ & T & _); cbn in T |- *;
      try (rewrite T; reflexivity).
    destruct (Py.contains "Command error" resp).
    + unfold lift. destruct (item _ 1); cbn; rewrite T; reflexivity.
    + cbn. rewrite T, filter_app. cbn. apply app_nil_r.
  - destruct (Pump.read 85 _) as [[[resp |] | e] w1] eqn:R;
      apply read_keeps in R as (_ & _ & T & _); cbn in T |- *;
      try (rewrite T; reflexivity).
    destruct (Py.contains "Command error" resp).
    + unfold lift. destruct (item _ 1); cbn; rewrite T; reflexivity.
    + cbn. rewrite T, filter_app. cbn. apply app_nil_r.
Qed.

(** The poller does what the specification says of it when it is run: a reply
    with the marker ends it and sets the state to idle. *)
Lemma waituntilfinished_on_marker (fuel : nat) (w w' : world) (resp : string) :
  state (dev w) <> idle ->
  Pump.read 5 w = (Ok (Some resp), w') ->
  Py.contains "T*" resp = true ->
  Pump.waituntilfinished (S fuel) w
  = (Pump.Finished, with_dev (set_state idle) w').
Proof.
  intros Hmoving Hread Hmarker. cbn [Pump.waituntilfinished].
  rewrite Hread, Hmarker.
  destruct (state (dev w)); [contradiction | reflexivity | reflexivity].
Qed.

(** C8 fails on the code: [infuse] moves the state to infusing and
    constructs the poller thread without starting it.  No thread runs,
    the reply with the completion marker stays unread, and the state
    stays infusing; the poller would set it to idle on that reply if it
    were run.  [withdraw] does the same. *)
Theorem infuse_never_starts_poller :
  Pump.infuse run_then_marker = (Ok tt, after_irun)
  /\ running after_irun = []
  /\ state (dev after_irun) = infusing
  /\ Pump.waituntilfinished 1 after_irun
     = (Pump.Finished,
        {| dev := ultra idle;
           port := {| tx := [frame "03irun"]; rx := [] |};
           events := [];
           threads := threads after_irun |})
  /\ Pump.withdraw (bench idle ["03<"; "03:T*"])
     = (Ok tt,
        {| dev := ultra withdrawing;
           port := {| tx := [frame "03wrun"]; rx := ["03:T*"] |};
           events := [];
           threads := threads after_irun |}).
Proof. repeat split; vm_compute; reflexivity. Qed.

(** A rejected run command does raise [PumpError] with the second line
    of the reply among its arguments, and the state stays idle. *)
Example infuse_command_error :
  Pump.infuse
    (bench idle [frame "" ++ frame "Command error: irun" ++ "03:"])
  = (Raise (PumpError ["%s: %s"; "Ultra"; "Command error: irun"]),
     {| dev := ultra idle;
        port := {| tx := [frame "03irun"]; rx := [] |};
        events := [];
        threads := [] |}).
Proof. vm_compute. reflexivity. Qed.

(** *** Reading a reply *)

(** C10: [read] returns [None] when the port yields no byte, and the
    decoded text without its line feeds when the port yields some; a
    caller that searches the reply ([infuse]) or indexes it
    ([setwithdrawrate]) then fails on [None] with [TypeError]. *)
Theorem read_is_None_on_empty (w : world) (size : nat) (bytes : string)
    (p : serial) :
  serial_read size (port w) = (bytes, p) ->
  (bytes = EmptyString -> Pump.read size w = (Ok None, with_port p w))
  /\ (forall text,
        bytes <> EmptyString -> decode bytes = Ok text ->
        Pump.read size w
        = (Ok (Some (Py.remove_char Py.LF text)), with_port p w)
        /\ Py.mem Py.LF (Py.remove_char Py.LF text) = false)
  /\ (bytes = EmptyString -> state (dev w) = idle ->
      (size = 55%nat -> fst (Pump.infuse w) = Raise TypeError)
      /\ (size = 7%nat ->
          forall flowrate unit,
            fst (Pump.setwithdrawrate flowrate unit w) = Raise TypeError)).
Proof.
  intros Hread. split; [| split].
  - intros ->. unfold Pump.read. rewrite Hread. reflexivity.
  - intros text Hsome Hdecode. split; [| apply remove_char_removes].
    unfold Pump.read. rewrite Hread.
    rewrite (nonempty_length bytes Hsome), Hdecode. reflexivity.
  - intros -> Hidle. split; intros -> .
    + unfold Pump.infuse. enter_guard Hidle. rewrite write_frame.
      unfold Pump.read. cbn [port with_port].
      rewrite serial_read_after_write, Hread. reflexivity.
    + intros flowrate unit.
      unfold Pump.setwithdrawrate. enter_guard Hidle. rewrite write_frame.
      unfold Pump.read. cbn [port with_port].
      rewrite serial_read_after_write, Hread. reflexivity.
Qed.

Lemma read_is_None_on_empty_witness :
  Pump.read 55 (bench idle []) = (Ok None, bench idle [])
  /\ fst (Pump.infuse (bench idle [])) = Raise TypeError
  /\ Pump.read 17 (bench idle [reply_with_line_feeds])
     = (Ok (Some (frame "03:")), bench idle []).
Proof.
  destruct (read_is_None_on_empty (bench idle []) 55 EmptyString
              (port (bench idle [])) eq_refl) as (Hnone & _ & Hcaller).
  destruct (read_is_None_on_empty (bench idle [reply_with_line_feeds]) 17
              reply_with_line_feeds (port (bench idle [])) eq_refl)
    as (_ & Hsome & _).
  split; [exact (Hnone eq_refl) |].
  split; [exact (proj1 (Hcaller eq_refl eq_refl) eq_refl) |].
  apply (Hsome reply_with_line_feeds); [discriminate | reflexivity].
Defined.

(** * Further properties *)

(** Case analysis on the eight bits of a character. *)
Ltac bits c := destruct c as [[] [] [] [] [] [] [] []].

(** Follow a method through every reply the port can give: split on each
    read and on each test, innermost first, keeping what reading leaves
    alone. *)
Ltac walk :=
  repeat first
    [ rewrite write_frame
    | progress cbn [text_of ret raise lift fst snd orb]
    | progress unfold lift, raise, ret, logging_error, logging_info, print, modify
    | match goal with
      | |- context [Pump.read ?n ?w] =>
          let R := fresh "R" in
          destruct (Pump.read n w) as [[[? |] | ?] ?] eqn:R;
          destruct (read_keeps _ _ _ _ R) as (? & ? & ? & ?)
      | |- context [match ?x with _ => _ end] =>
          lazymatch x with
          | context [Pump.read] => fail
          | context [match _ with _ => _ end] => fail
          | _ => destruct x eqn:?
          end
      end ].

(** ** Strings *)

Section Strings.

Lemma append_assoc (a b c : string) : (a ++ b) ++ c = a ++ b ++ c.
Proof. induction a as [| x a IH]; cbn; [reflexivity | rewrite IH; reflexivity]. Qed.

Lemma append_empty_r (a : string) : a ++ "" = a.
Proof. induction a as [| x a IH]; cbn; [reflexivity | rewrite IH; reflexivity]. Qed.


Lemma all_chars_app (p : ascii -> bool) (a b : string) :
  all_chars p (a ++ b) = all_chars p a && all_chars p b.
Proof.
  induction a as [| c a IH]; cbn; [reflexivity |].
  rewrite IH, andb_assoc. reflexivity.
Qed.

Lemma all_chars_weaken (p q : ascii -> bool) (s : string) :
  (forall c, p c = true -> q c = true) ->
  all_chars p s = true -> all_chars q s = true.
Proof.
  intros Hpq. induction s as [| c s IH]; cbn; [reflexivity |].
  intros H. apply andb_true_iff in H as [Hc Hs].
  rewrite (Hpq c Hc), (IH Hs). reflexivity.
Qed.

(** Stripping on the left drops a run of stripped characters and stops
    at the first character that is kept. *)
Lemma lstrip_if_split (drop : ascii -> bool) (s : string) :
  exists pre,
    s = pre ++ Py.lstrip_if drop s
    /\ all_chars drop pre = true
    /\ match first_char (Py.lstrip_if drop s) with
       | Some c => drop c = false
       | None => True
       end.
Proof.
  induction s as [| c s (pre & Hs & Hpre & Hfirst)]; cbn.
  - exists "". auto.
  - destruct (drop c) eqn:D.
    + exists (String c pre). cbn. rewrite D, Hpre. repeat split; congruence.
    + exists "". cbn. auto.
Qed.

Lemma rstrip_if_split (drop : ascii -> bool) (s : string) :
  exists post,
    s = Py.rstrip_if drop s ++ post
    /\ all_chars drop post = true
    /\ match last_char (Py.rstrip_if drop s) with
       | Some c => drop c = false
       | None => True
       end.
Proof.
  induction s as [| c s (post & Hs & Hpost & Hlast)]; cbn.
  - exists "". auto.
  - destruct (Py.rstrip_if drop s) as [| d kept] eqn:K.
    + destruct (drop c) eqn:D.
      * exists (String c post). cbn in *. rewrite D, Hpost.
        repeat split; congruence.
      * exists post. cbn in *. repeat split; congruence.
    + exists post. repeat split; [rewrite Hs at 1; reflexivity | exact Hpost |].
      exact Hlast.
Qed.

(** Stripping on the right keeps the first character of what is left. *)
Lemma rstrip_if_first (drop : ascii -> bool) (s : string) :
  match first_char (Py.rstrip_if drop s) with
  | Some c => first_char s = Some c
  | None => True
  end.
Proof.
  destruct s as [| c s]; cbn; [exact I |].
  destruct (Py.rstrip_if drop s); [destruct (drop c) |]; cbn; auto.
Qed.

Lemma rstrip_if_keeps (drop : ascii -> bool) (s : string) :
  all_chars (fun c => negb (drop c)) s = true -> Py.rstrip_if drop s = s.
Proof.
  induction s as [| c s IH]; cbn; [reflexivity |].
  intros H. apply andb_true_iff in H as [Hc Hs]. rewrite (IH Hs).
  destruct s; [| reflexivity].
  apply negb_true_iff in Hc. rewrite Hc. reflexivity.
Qed.

End Strings.

(** ** Response normalizer *)

(** X1: [remove_crud] only trims: the text is the result with zeros and
    spaces put back in front of it and zeros, spaces and dots put back
    behind it. *)
Theorem remove_crud_only_trims (s : string) :
  exists pre post,
    s = pre ++ remove_crud s ++ post
    /\ all_chars (fun c => Py.mem c "0 ") pre = true
    /\ all_chars (fun c => Py.mem c "0 .") post = true.
Proof.
  unfold remove_crud, Py.lstrip, Py.rstrip.
  set (s1 := if Py.contains "." s
             then Py.rstrip_if (fun c => Py.mem c "0") s else s).
  assert (H1 : exists p1, s = s1 ++ p1
                          /\ all_chars (fun c => Py.mem c "0") p1 = true).
  { subst s1. destruct (Py.contains "." s).
    - destruct (rstrip_if_split (fun c => Py.mem c "0") s) as (p1 & E & A & _).
      exists p1. auto.
    - exists "". rewrite append_empty_r. auto. }
  destruct H1 as (p1 & E1 & A1).
  destruct (lstrip_if_split (fun c => Py.mem c "0 ") s1) as (pre & E2 & A2 & _).
  destruct (rstrip_if_split (fun c => Py.mem c " .")
              (Py.lstrip_if (fun c => Py.mem c "0 ") s1)) as (p2 & E3 & A3 & _).
  exists pre, (p2 ++ p1). split; [| split].
  - clearbody s1.
    set (kept := Py.rstrip_if _ _) in *. clearbody kept.
    set (s2 := Py.lstrip_if _ s1) in *. clearbody s2.
    subst s s1 s2. rewrite !append_assoc. reflexivity.
  - exact A2.
  - rewrite all_chars_app. apply andb_true_iff. split.
    + apply (all_chars_weaken (fun c => Py.mem c " .")); [| exact A3].
      intros c. cbn. destruct (Ascii.eqb c " "), (Ascii.eqb c "."), (Ascii.eqb c "0");
        auto; discriminate.
    + apply (all_chars_weaken (fun c => Py.mem c "0")); [| exact A1].
      intros c. cbn. destruct (Ascii.eqb c "0"); auto; discriminate.
Qed.

(** X2: what [remove_crud] returns starts with neither a zero nor a
    space and ends with neither a space nor a dot. *)
Theorem remove_crud_ends_clean (s : string) :
  match first_char (remove_crud s) with
  | Some c => Py.mem c "0 " = false
  | None => True
  end
  /\ match last_char (remove_crud s) with
     | Some c => Py.mem c " ." = false
     | None => True
     end.
Proof.
  unfold remove_crud, Py.lstrip, Py.rstrip.
  set (s1 := if Py.contains "." s
             then Py.rstrip_if (fun c => Py.mem c "0") s else s).
  set (s2 := Py.lstrip_if (fun c => Py.mem c "0 ") s1).
  split.
  - pose proof (rstrip_if_first (fun c => Py.mem c " .") s2) as Hfirst.
    destruct (first_char (Py.rstrip_if _ s2)) as [c |]; [| exact I].
    destruct (lstrip_if_split (fun c => Py.mem c "0 ") s1) as (_ & _ & _ & Hkept).
    fold s2 in Hkept. rewrite Hfirst in Hkept. exact Hkept.
  - destruct (rstrip_if_split (fun c => Py.mem c " .") s2) as (_ & _ & _ & Hlast).
    exact Hlast.
Qed.

(** ** Unit abbreviations *)

Lemma index_in_range (s : string) (i : nat) :
  (i < String.length s)%nat ->
  exists c, Py.index s (Z.of_nat i) = Ok c /\ String.get i s = Some c.
Proof.
  intros Hi. unfold Py.index, Py.len. cbv zeta.
  assert (H0 : (Z.of_nat i <? 0) = false) by (apply Z.ltb_ge; lia).
  assert (H1 : (Z.of_nat (String.length s) <=? Z.of_nat i) = false)
    by (apply Z.leb_gt; lia).
  rewrite H0. cbv iota. rewrite H0, H1. cbn [orb]. cbv iota.
  rewrite Nat2Z.id.
  destruct (String.get i s) as [c |] eqn:G.
  - exists c. split; reflexivity.
  - exfalso. revert i Hi G H0 H1.
    induction s as [| d s IH]; cbn; intros i Hi G _ _; [lia |].
    destruct i as [| i]; [discriminate |].
    apply (IH i); [lia | exact G | apply Z.ltb_ge; lia | apply Z.leb_gt; lia].
Qed.

(** On three characters or more, the first and the third decide. *)
Lemma convert_str_units_three (a b t : ascii) (rest : string) :
  convert_str_units (String a (String b (String t rest)))
  = if Ascii.eqb t "s" then Ok (String a "l/sec")
    else if Ascii.eqb t "m" then Ok (String a "l/min")
    else if Ascii.eqb t "h" then Ok (String a "l/hor")
    else Raise (ValueError "Unknown unit").
Proof.
  unfold convert_str_units.
  change (Py.index (String a (String b (String t rest))) 0) with (Ok (A := ascii) a).
  cbv beta iota.
  replace (Py.index (String a (String b (String t rest))) 2) with (Ok (A := ascii) t).
  - reflexivity.
  - destruct (index_in_range (String a (String b (String t rest))) 2) as (c & Hc & G);
      [cbn; lia |].
    cbn in G. change (Z.of_nat 2) with 2 in Hc. congruence.
Qed.

(** X3: the errors of [convert_str_units].  It returns only for an
    abbreviation of three characters or more whose third is s, m or h;
    it raises [IndexError] exactly on fewer than three characters, also
    on two, where the first exists; and [ValueError] on any other third
    character. *)
Theorem convert_str_units_errors (abbr : string) :
  match convert_str_units abbr with
  | Ok full =>
      exists a b t rest,
        abbr = String a (String b (String t rest)) /\ Py.mem t "smh" = true
  | Raise e =>
      (e = IndexError /\ (String.length abbr < 3)%nat)
      \/ (e = ValueError "Unknown unit"
          /\ exists a b t rest,
               abbr = String a (String b (String t rest))
               /\ Py.mem t "smh" = false)
  end.
Proof.
  destruct abbr as [| a [| b [| t rest]]];
    try (cbn; left; split; [reflexivity | lia]).
  rewrite convert_str_units_three.
  destruct (Ascii.eqb t "s") eqn:E1;
    [| destruct (Ascii.eqb t "m") eqn:E2;
       [| destruct (Ascii.eqb t "h") eqn:E3]];
    try (exists a, b, t, rest; split; [reflexivity |];
         cbn [Py.mem]; rewrite ?E1, ?E2, ?E3; reflexivity).
  right. split; [reflexivity |]. exists a, b, t, rest.
  split; [reflexivity |]. cbn [Py.mem]. rewrite E1, E2, E3. reflexivity.
Qed.

(** X4: what [convert_str_units] returns is read by [convert_units]
    as intended on the to side: six characters, whose last three are
    sec, min or hor, and whose first two are the first character of the
    abbreviation and l. *)
Theorem convert_str_units_feeds_convert_units (abbr full : string) :
  convert_str_units abbr = Ok full ->
  String.length full = 6%nat
  /\ (exists a, first_char abbr = Some a /\ volume_prefix full = String a "l")
  /\ (time_suffix full = "sec" \/ time_suffix full = "min"
      \/ time_suffix full = "hor").
Proof.
  intros H.
  destruct abbr as [| a [| b [| t rest]]]; try discriminate H.
  pose proof (convert_str_units_three a b t rest) as Hc.
  rewrite H in Hc.
  destruct (Ascii.eqb t "s");
    [| destruct (Ascii.eqb t "m"); [| destruct (Ascii.eqb t "h")]];
    inversion Hc; subst full;
    (split; [reflexivity |]);
    (split; [exists a; split; reflexivity |]);
    vm_compute; auto.
Qed.

Lemma convert_str_units_feeds_convert_units_witness :
  String.length "ul/min" = 6%nat
  /\ (exists a, first_char "u/m" = Some a /\ volume_prefix "ul/min" = String a "l")
  /\ (time_suffix "ul/min" = "sec" \/ time_suffix "ul/min" = "min"
      \/ time_suffix "ul/min" = "hor").
Proof.
  apply (convert_str_units_feeds_convert_units "u/m" "ul/min"). reflexivity.
Defined.

(** ** The pattern of a numeral with its volume unit *)

Section Pattern.

Lemma span_digits_split (s : string) :
  s = fst (Re.span_digits s) ++ snd (Re.span_digits s)
  /\ all_digits (fst (Re.span_digits s)) = true
  /\ no_digit_ahead (snd (Re.span_digits s)).
Proof.
  unfold all_digits.
  induction s as [| c rest (IH1 & IH2 & IH3)]; cbn; [auto |].
  destruct (Py.is_digit c) eqn:D; cbn; [| auto].
  destruct (Re.span_digits rest) as [ds tail]. cbn in *.
  rewrite D, IH2. repeat split; [congruence | exact IH3].
Qed.

Lemma span_digits_all (ds tail : string) :
  all_digits ds = true -> no_digit_ahead tail ->
  Re.span_digits (ds ++ tail) = (ds, tail).
Proof.
  unfold all_digits. induction ds as [| c ds IH]; cbn; intros Hd Ht.
  - destruct tail as [| c t]; [reflexivity |]. cbn in Ht |- *.
    rewrite Ht. reflexivity.
  - apply andb_true_iff in Hd as [Hc Hd]. rewrite Hc, (IH Hd Ht). reflexivity.
Qed.

(** What follows a numeral in a match: a space, the unit letter and [l]. *)
Lemma unit_tail (r3 n0 n u : string) :
  match r3 with
  | String " " (String uc (String "l" _)) =>
      if Py.mem uc "mup" then Some (n0, String uc "l") else None
  | _ => None
  end = Some (n, u) ->
  n = n0 /\ is_volume_unit u /\ exists post, r3 = " " ++ u ++ post.
Proof.
  unfold is_volume_unit.
  destruct r3 as [| sp [| uc [| l post]]]; try discriminate.
  - bits sp; discriminate.
  - bits sp; discriminate.
  - bits sp; try discriminate. bits l; try discriminate.
    destruct (Py.mem uc "mup") eqn:Hu; [| discriminate].
    intros H. inversion H; subst. split; [reflexivity |]. split.
    + cbn in Hu.
      destruct (Ascii.eqb_spec uc "m") as [-> | _]; [auto |].
      destruct (Ascii.eqb_spec uc "u") as [-> | _]; [auto |].
      destruct (Ascii.eqb_spec uc "p") as [-> | _]; [auto | discriminate].
    + exists post. reflexivity.
Qed.

Lemma match_here_sound (s n u : string) :
  Re.match_here s = Some (n, u) ->
  is_numeral n = true /\ is_volume_unit u
  /\ exists post, s = n ++ " " ++ u ++ post.
Proof.
  unfold Re.match_here.
  destruct (span_digits_split s) as (Hs & Hd & Hahead).
  destruct (Re.span_digits s) as [whole r1]. cbn [fst snd] in *.
  destruct whole as [| c whole']; [discriminate |].
  set (w := String c whole') in *.
  assert (Hdot : (exists r2, r1 = "." ++ r2)
                 \/ match r1 with
                    | String "." r => (".", r)
                    | _ => ("", r1)
                    end = ("", r1)).
  { destruct r1 as [| d r1']; [right; reflexivity |].
    bits d; try (right; reflexivity).
    left. exists r1'. reflexivity. }
  destruct Hdot as [(r2 & ->) | Hno].
  - cbn [append].
    destruct (span_digits_split r2) as (Hs2 & Hd2 & _).
    destruct (Re.span_digits r2) as [frac r3]. cbn [fst snd] in *.
    intros H. apply unit_tail in H as (-> & Hu & post & ->).
    split; [| split; [exact Hu |]].
    + unfold is_numeral.
      rewrite (span_digits_all w (String "." frac) Hd); [| reflexivity].
      subst w. cbn. exact Hd2.
    + exists post. rewrite Hs, Hs2, !append_assoc. reflexivity.
  - rewrite Hno.
    assert (Hnone : Re.span_digits r1 = ("", r1)).
    { destruct r1 as [| d r1']; [reflexivity |]. cbn in Hahead |- *.
      rewrite Hahead. reflexivity. }
    rewrite Hnone.
    intros H. apply unit_tail in H as (-> & Hu & post & ->).
    split; [| split; [exact Hu |]].
    + unfold is_numeral. cbn [append]. rewrite !append_empty_r.
      rewrite <- (append_empty_r w) at 1.
      rewrite (span_digits_all w "" Hd I). subst w. reflexivity.
    + exists post. rewrite Hs. cbn [append]. rewrite !append_empty_r.
      reflexivity.
Qed.

(** What the pattern finds is in the text, in this form: a numeral
    (digits, a dot if any, digits), one space, and ml, ul or pl. *)
Lemma search_finds_numeral_and_unit (s n u : string) :
  Re.search s = Some (n, u) ->
  is_numeral n = true /\ is_volume_unit u
  /\ exists pre post, s = pre ++ n ++ " " ++ u ++ post.
Proof.
  induction s as [| c rest IH]; cbn [Re.search].
  - cbn. discriminate.
  - destruct (Re.match_here (String c rest)) as [[n' u'] |] eqn:Hhere.
    + intros H. inversion H; subst n' u'.
      apply match_here_sound in Hhere as (Hn & Hu & post & Hs).
      repeat split; [exact Hn | exact Hu |]. exists "", post. exact Hs.
    + intros H. apply IH in H as (Hn & Hu & pre & post & ->).
      repeat split; [exact Hn | exact Hu |].
      exists (String c pre), post. reflexivity.
Qed.

End Pattern.

(** ** [float] on a numeral *)

Section FloatOfNumeral.

Lemma digit_is_no_space (c : ascii) : Py.is_digit c = true -> Py.is_space c = false.
Proof. bits c; try discriminate; reflexivity. Qed.

Lemma numeric_is_no_space (c : ascii) :
  numeric_char c = true -> negb (Py.is_space c) = true.
Proof. bits c; try discriminate; reflexivity. Qed.

Lemma all_digits_numeric (s : string) :
  all_digits s = true -> all_chars numeric_char s = true.
Proof.
  apply all_chars_weaken. intros c Hc. unfold numeric_char. rewrite Hc. reflexivity.
Qed.

Lemma drop_underscores_none (prev : ascii) (s : string) :
  all_chars numeric_char s = true ->
  PyFloat.drop_underscores prev s = Some s.
Proof.
  revert prev. induction s as [| c s IH]; cbn; intros prev H; [reflexivity |].
  apply andb_true_iff in H as [Hc Hs].
  assert (Hu : Ascii.eqb c "_" = false)
    by (bits c; try discriminate; reflexivity).
  rewrite Hu, (IH c Hs). reflexivity.
Qed.

Lemma digits_span (ds tail : string) (acc : Z) (count : nat) :
  all_digits ds = true -> no_digit_ahead tail ->
  exists v, PyFloat.digits acc count (ds ++ tail)
            = (v, (count + String.length ds)%nat, tail).
Proof.
  unfold all_digits. revert acc count.
  induction ds as [| c ds IH];
    cbn [PyFloat.digits append all_chars String.length];
    intros acc count Hd Ht.
  - exists acc. rewrite Nat.add_0_r.
    destruct tail as [| c t]; [reflexivity |]. cbn in Ht |- *.
    rewrite Ht. reflexivity.
  - apply andb_true_iff in Hd as [Hc Hd]. rewrite Hc.
    destruct (IH (10 * acc + Z.of_nat (nat_of_ascii c - 48))%Z (S count) Hd Ht)
      as [v Hv].
    exists v. rewrite Hv. f_equal. f_equal. apply Nat.add_succ_comm.
Qed.

(** The shape behind [is_numeral]. *)
Lemma numeral_shape (n : string) :
  is_numeral n = true ->
  exists c whole frac,
    Py.is_digit c = true /\ all_digits whole = true /\ all_digits frac = true
    /\ (n = String c whole \/ n = String c whole ++ "." ++ frac).
Proof.
  unfold is_numeral.
  destruct (span_digits_split n) as (Hs & Hd & _).
  destruct (Re.span_digits n) as [d1 r]. cbn [fst snd] in *.
  destruct d1 as [| c whole]; [discriminate |].
  unfold all_digits in Hd. cbn in Hd. apply andb_true_iff in Hd as [Hc Hw].
  destruct r as [| d r'].
  - intros _. exists c, whole, "". rewrite append_empty_r in Hs. auto.
  - bits d; try discriminate. intros Hf.
    exists c, whole, r'. repeat split; auto.
Qed.

(** [float] accepts every numeral: the text that the pattern hands to
    [float] in the setters never makes it raise. *)
Lemma float_of_numeral (n : string) :
  is_numeral n = true -> exists x, PyFloat.float_of_str n = Ok x.
Proof.
  intros Hn. apply numeral_shape in Hn as (c & whole & frac & Hc & Hw & Hf & Hn).
  assert (Hcw : all_digits (String c whole) = true)
    by (unfold all_digits in *; cbn; rewrite Hc, Hw; reflexivity).
  assert (Hnum : all_chars numeric_char n = true).
  { destruct Hn as [-> | ->].
    - apply all_digits_numeric. exact Hcw.
    - rewrite !all_chars_app.
      rewrite (all_digits_numeric _ Hcw), (all_digits_numeric _ Hf). reflexivity. }
  assert (Hhead : exists rest, n = String c rest)
    by (destruct Hn as [-> | ->]; eexists; reflexivity).
  destruct Hhead as [rest Hrest].
  unfold PyFloat.float_of_str.
  assert (Hl : Py.lstrip_if Py.is_space n = n).
  { rewrite Hrest. cbn. rewrite (digit_is_no_space c Hc). reflexivity. }
  rewrite Hl, (rstrip_if_keeps Py.is_space n
                 (all_chars_weaken _ _ n numeric_is_no_space Hnum)).
  rewrite (drop_underscores_none " " n Hnum).
  assert (Hsign : match n with
                  | String "+"%char r => (false, r)
                  | String "-"%char r => (true, r)
                  | _ => (false, n)
                  end = (false, n)).
  { rewrite Hrest. clear - Hc. bits c; try discriminate; reflexivity. }
  rewrite Hsign.
  assert (Hword : forall word,
             match word with String k _ => Py.is_digit k = false | _ => True end ->
             String.eqb (PyFloat.lowercase n) word = false).
  { intros word Hk. rewrite Hrest. cbn. destruct word as [| k word]; [reflexivity |].
    cbn.
    assert (Hlow : PyFloat.lower c = c)
      by (clear - Hc; bits c; try discriminate; reflexivity).
    rewrite Hlow. destruct (Ascii.eqb_spec c k) as [-> | _]; [| reflexivity].
    congruence. }
  unfold PyFloat.unsigned.
  rewrite (Hword "inf" eq_refl), (Hword "infinity" eq_refl), (Hword "nan" eq_refl).
  cbn [orb].
  destruct Hn as [-> | ->].
  - rewrite <- (append_empty_r (String c whole)).
    destruct (digits_span (String c whole) "" 0 0 Hcw I) as [v Hv].
    rewrite Hv. cbn. eexists. reflexivity.
  - destruct (digits_span (String c whole) ("." ++ frac) 0 0 Hcw eq_refl) as [v Hv].
    rewrite Hv. cbn [append].
    destruct (digits_span frac "" v 0 Hf I) as [v' Hv'].
    rewrite append_empty_r in Hv'. rewrite Hv'. cbn. eexists. reflexivity.
Qed.

End FloatOfNumeral.

(** ** Setters *)

Section Setters.







(** X5: a setter stores only what the pump confirmed.  Whatever the
    replies, after [setdiameter], [setinfusionrate], [setwithdrawrate],
    [settargetvolume] or [setsyringevolume] the pump object is as
    before, or the call returned normally and its one attribute holds a
    value equal to the requested one. *)
Theorem setters_store_only_confirmed (w : world) (x : float) (unit : string) :
  stores_only set_diameter x w (Pump.setdiameter x w)
  /\ stores_only set_flowrate x w (Pump.setinfusionrate x unit w)
  /\ stores_only set_flowrate x w (Pump.setwithdrawrate x unit w)
  /\ stores_only set_targetvolume x w (Pump.settargetvolume x unit w)
  /\ stores_only set_syringevolume x w (Pump.setsyringevolume x unit w).
Proof.
  unfold stores_only, Pump.setdiameter, Pump.setinfusionrate,
    Pump.setwithdrawrate, Pump.settargetvolume, Pump.setsyringevolume,
    Pump.getsyringevolume.
  autounfold with pump_monad.
  repeat split;
    walk; cbn in *;
    first
      [ left; congruence
      | right; split; [reflexivity |];
        eexists; split; [eassumption | congruence] ].
Qed.



End Setters.

(** ** Queries *)

Section Queries.

(** X7: the four volume queries only ask.  Whatever the reply, each
    sends its one frame and leaves the pump object, the log and the
    threads as they were. *)
Theorem volume_queries_only_ask (q : volume_query) (w : world) :
  query_only (query_command q) w (ask q w).
Proof.
  unfold query_only.
  destruct q; cbn [ask query_command];
    unfold Pump.gettargetvolume, Pump.getsyringevolume, Pump.ivolume,
      Pump.wvolume;
    autounfold with pump_monad; walk; cbn in *;
    repeat split; congruence.
Qed.

(** X8: a volume query that returns, returns a numeral, one space and
    ml, ul or pl, and [float] accepts the numeral. *)
Theorem volume_queries_return_numeral_and_unit (q : volume_query)
    (w w' : world) (text : string) :
  ask q w = (Ok text, w') ->
  exists n u x,
    text = n ++ " " ++ u
    /\ is_numeral n = true /\ is_volume_unit u
    /\ PyFloat.float_of_str n = Ok x.
Proof.
  destruct q; cbn [ask];
    unfold Pump.gettargetvolume, Pump.getsyringevolume, Pump.ivolume,
      Pump.wvolume;
    autounfold with pump_monad; walk;
    intros Hret; inversion Hret; subst;
    match goal with
    | S : Re.search _ = Some (?n, ?u) |- _ =>
        apply search_finds_numeral_and_unit in S as (Hn & Hu & _);
        destruct (float_of_numeral n Hn) as [x Hx];
        exists n, u, x; auto
    end.
Qed.

Lemma volume_queries_return_numeral_and_unit_witness :
  exists n u x,
    "5.000 ml" = n ++ " " ++ u
    /\ is_numeral n = true /\ is_volume_unit u
    /\ PyFloat.float_of_str n = Ok x.
Proof.
  apply (volume_queries_return_numeral_and_unit Target
           (bench idle ["03:5.000 ml"])
           (snd (Pump.gettargetvolume (bench idle ["03:5.000 ml"])))).
  vm_compute. reflexivity.
Defined.

End Queries.

(** ** Stopping and starting *)

Section RunStop.

(** X9: [stop] has no guard.  From any state it sends the stop frame;
    it returns normally only with the state set to idle and the stop
    logged, and when it raises nothing of the pump object has changed. *)
Theorem stop_outcomes (w : world) : stop_outcome w (Pump.stop w).
Proof.
  unfold stop_outcome, Pump.stop. autounfold with pump_monad.
  walk; cbn in *; (split; [congruence |]); (split; [congruence |]);
    first
      [ left; repeat split; congruence
      | right; split; [eexists; reflexivity | split; congruence] ].
Qed.

(** X10: [infuse] and [withdraw] change the pump object in one way
    only, from idle to the moving state on a normal return; when they
    raise, the pump object, the log and the threads are as before; and
    no thread is running after them that was not running before. *)
Theorem run_commands_outcomes (w : world) :
  run_outcome infusing w (Pump.infuse w)
  /\ run_outcome withdrawing w (Pump.withdraw w).
Proof.
  split.
  - split; [apply run_commands_start_no_thread |].
    unfold Pump.infuse. autounfold with pump_monad.
    walk; cbn in *.
    all: split;
      [ first [ left; congruence
              | right; split;
                [ destruct (state (dev w)); [reflexivity | discriminate ..]
                | split; [reflexivity | congruence] ] ]
      | intros [? He]; first [discriminate He | repeat split; congruence] ].
  - split; [apply run_commands_start_no_thread |].
    unfold Pump.withdraw. autounfold with pump_monad.
    walk; cbn in *.
    all: split;
      [ first [ left; congruence
              | right; split;
                [ destruct (state (dev w)); [reflexivity | discriminate ..]
                | split; [reflexivity | congruence] ] ]
      | intros [? He]; first [discriminate He | repeat split; congruence] ].
Qed.

End RunStop.

(** ** The poller *)

Section Poller.




(** Polling leaves the pump object alone. *)
Lemma waituntilfinished_polling_dev (n : nat) (w wn : world) :
  Pump.waituntilfinished n w = (Pump.Still_polling, wn) -> dev wn = dev w.
Proof.
  revert w. induction n as [| n IH]; intros w; cbn [Pump.waituntilfinished].
  - intros H. inversion H. reflexivity.
  - destruct (_ || _); [| discriminate].
    destruct (Pump.read 5 w) as [[[resp |] | e] w1] eqn:R;
      destruct (read_keeps _ _ _ _ R) as (D & _).
    + destruct (Py.contains "T*" resp); [discriminate |].
      intros H. rewrite (IH _ H). exact D.
    + intros H. rewrite (IH _ H). exact D.
    + intros H. rewrite (IH _ H). exact D.
Qed.

(** Rounds that found no marker are simply followed by the next ones. *)
Lemma waituntilfinished_continues (n m : nat) (w wn : world) :
  Pump.waituntilfinished n w = (Pump.Still_polling, wn) ->
  Pump.waituntilfinished (n + m) w = Pump.waituntilfinished m wn.
Proof.
  revert w. induction n as [| n IH]; intros w; cbn [Pump.waituntilfinished Nat.add].
  - intros H. inversion H. reflexivity.
  - destruct (_ || _); [| discriminate].
    destruct (Pump.read 5 w) as [[[resp |] | e] w1].
    + destruct (Py.contains "T*" resp); [discriminate | apply IH].
    + apply IH.
    + apply IH.
Qed.

(** X12: the poll ends on the marker.  If [n] rounds found nothing and
    the next read holds "T*", every call with more than [n] rounds
    returns "finished" with the state idle and that reply consumed. *)
Theorem waituntilfinished_ends_on_marker (n extra : nat) (w wn w' : world)
    (resp : string) :
  moving w ->
  Pump.waituntilfinished n w = (Pump.Still_polling, wn) ->
  Pump.read 5 wn = (Ok (Some resp), w') ->
  Py.contains "T*" resp = true ->
  Pump.waituntilfinished (n + S extra) w
  = (Pump.Finished, with_dev (set_state idle) w').
Proof.
  intros Hmove Hn Hread Hmarker.
  rewrite (waituntilfinished_continues n (S extra) w wn Hn).
  pose proof (waituntilfinished_polling_dev n w wn Hn) as Hdev.
  apply (waituntilfinished_on_marker extra wn w' resp);
    [| exact Hread | exact Hmarker].
  rewrite Hdev. destruct Hmove as [-> | ->]; discriminate.
Qed.

Lemma waituntilfinished_ends_on_marker_witness :
  Pump.waituntilfinished (2 + 1) (bench infusing [""; "03>"; "03:T*"; "03:"])
  = (Pump.Finished, with_dev (set_state idle) (bench infusing ["03:"])).
Proof.
  apply (waituntilfinished_ends_on_marker 2 0
           (bench infusing [""; "03>"; "03:T*"; "03:"])
           (bench infusing ["03:T*"; "03:"])
           (bench infusing ["03:"]) "03:T*").
  - left. reflexivity.
  - reflexivity.
  - reflexivity.
  - reflexivity.
Defined.

End Poller.

(** ** Reading *)

Section Reading.

Lemma substring_length (n m : nat) (s : string) :
  (String.length (substring n m s) <= m)%nat.
Proof.
  revert n m. induction s as [| c s IH]; intros n m.
  - destruct n, m; cbn; lia.
  - destruct n as [| n].
    + destruct m as [| m]; cbn; [lia |]. specialize (IH 0%nat m). lia.
    + cbn. apply IH.
Qed.

Lemma remove_char_length (c : ascii) (s : string) :
  (String.length (Py.remove_char c s) <= String.length s)%nat.
Proof.
  induction s as [| d s IH]; cbn; [lia |].
  destruct (Ascii.eqb c d); cbn; lia.
Qed.

Lemma serial_read_length (size : nat) (p : serial) :
  (String.length (fst (serial_read size p)) <= size)%nat.
Proof.
  unfold serial_read. destruct (rx p) as [| chunk later]; cbn; [lia |].
  apply substring_length.
Qed.

(** X13: [read] is bounded.  The text it returns has no more characters
    than the bytes asked for, and no line feed among them. *)
Theorem read_is_bounded (bytes : nat) (w w' : world) (text : string) :
  Pump.read bytes w = (Ok (Some text), w') ->
  (String.length text <= bytes)%nat /\ Py.mem Py.LF text = false.
Proof.
  unfold Pump.read.
  pose proof (serial_read_length bytes (port w)) as Hlen.
  destruct (serial_read bytes (port w)) as [response p]. cbn [fst] in Hlen.
  destruct (Nat.eqb _ 0); [discriminate |].
  unfold decode. destruct (forallb _ _); [| discriminate].
  intros H. inversion H; subst. split.
  - pose proof (remove_char_length Py.LF response). lia.
  - apply remove_char_removes.
Qed.

Lemma read_is_bounded_witness :
  (String.length "03:T*" <= 5)%nat /\ Py.mem Py.LF "03:T*" = false.
Proof.
  apply (read_is_bounded 5 (bench infusing ["03:T*12"])
           (bench infusing ["12"]) "03:T*").
  reflexivity.
Defined.

End Reading.

(** ** Constructing a pump *)

Section Construction.

(** What the probe of [Pump.__init__] leaves alone, and what it sends. *)
Lemma Pump_probe_keeps (w w' : world) (r : outcome pump_state) :
  Pump_probe w = (r, w') ->
  dev w' = dev w
  /\ tx (port w') = (tx (port w) ++ [(address (dev w) ++ frame "ver")%string])%list.
Proof.
  unfold Pump_probe. autounfold with pump_monad.
  walk; cbn in *; intros Hr; inversion Hr; subst; split; congruence.
Qed.

(** X14: the constructor closes the chain exactly when it raises
    [PumpError]; any other exception of the probe leaves the chain open.
    In every case the one frame of the version query has been sent, and
    a pump that is made has no diameter, rate or volume yet. *)
Theorem Pump_init_closes_on_PumpError (chain : serial) (port_name : string)
    (addr : float) (nm : string) :
  let p := Pump_init chain port_name addr nm in
  (closed p = true <-> exists args, made p = Raise (PumpError args))
  /\ tx (chain_after p)
     = (tx chain ++ [(format_address addr ++ frame "ver")%string])%list
  /\ forall pump, made p = Ok pump ->
       name pump = nm
       /\ address pump = format_address addr
       /\ diameter pump = None /\ flowrate pump = None
       /\ targetvolume pump = None /\ syringevolume pump = None
       /\ logged p <> [].
Proof.
  unfold Pump_init.
  destruct (Pump_probe _) as [[st | e] w'] eqn:P;
    apply Pump_probe_keeps in P as [D T]; cbn in D, T.
  - cbn. split; [split; [discriminate | intros [? H]; discriminate H] |].
    split; [exact T |].
    intros pump H. inversion H; subst. rewrite D. cbn.
    repeat split; discriminate.
  - destruct e; cbn;
      (split;
       [ split;
         [ intros H; first [discriminate H | eauto]
         | intros [? H]; first [reflexivity | discriminate H] ]
       | split; [exact T | intros pump H; discriminate H] ]).
Qed.

(** X15: a probe that gets no reply raises [TypeError], and the chain
    stays open. *)
Theorem Pump_init_on_silence (chain : serial) (port_name : string)
    (address : float) (name : string) :
  rx chain = [] ->
  made (Pump_init chain port_name address name) = Raise TypeError
  /\ closed (Pump_init chain port_name address name) = false.
Proof.
  intros Hrx. unfold Pump_init, Pump_probe. autounfold with pump_monad.
  rewrite write_frame. unfold Pump.read, serial_read. cbn. rewrite Hrx.
  cbn. auto.
Qed.

Lemma Pump_init_on_silence_witness :
  made (Pump_init {| tx := []; rx := [] |} "COM3" 3 "Ultra") = Raise TypeError
  /\ closed (Pump_init {| tx := []; rx := [] |} "COM3" 3 "Ultra") = false.
Proof.
  apply (Pump_init_on_silence {| tx := []; rx := [] |} "COM3" 3 "Ultra").
  reflexivity.
Defined.

(** A reply that starts with the address and a status makes the pump. *)
Example Pump_init_makes_pump :
  made (Pump_init {| tx := []; rx := ["03:"] |} "COM3" 3 "Ultra")
  = Ok (blank "Ultra" "03")
  /\ closed (Pump_init {| tx := []; rx := ["03:"] |} "COM3" 3 "Ultra") = false.
Proof. vm_compute. split; reflexivity. Qed.

(** X16: every chain address from 0 to 99 is formatted as two
    characters that [int] reads back as the address. *)
Theorem address_round_trip (n : nat) :
  (n < 100)%nat ->
  String.length (format_address (float_of_nat n)) = 2%nat
  /\ PyInt.int_of_str (format_address (float_of_nat n)) = Ok (Z.of_nat n).
Proof.
  intros Hn.
  do 100 (destruct n as [| n]; [vm_compute; split; reflexivity |]).
  lia.
Qed.

Lemma address_round_trip_witness :
  String.length (format_address (float_of_nat 3)) = 2%nat
  /\ PyInt.int_of_str (format_address (float_of_nat 3)) = Ok (Z.of_nat 3).
Proof. apply (address_round_trip 3). lia. Defined.

End Construction.

(** ** The single-unit pump: [Pump2000] *)

Section Phd.

Lemma phd_write_frame (command : string) (w : Pump2000.world) :
  Pump2000.write command w
  = (Ok tt,
     Pump2000.with_port
       (serial_write (Pump2000.address (Pump2000.dev w) ++ frame command)
          (Pump2000.port w)) w).
Proof. reflexivity. Qed.

Lemma phd_read_keeps (bytes : nat) (w w' : Pump2000.world)
    (r : outcome (option string)) :
  Pump2000.read bytes w = (r, w') ->
  Pump2000.dev w' = Pump2000.dev w
  /\ Pump2000.events w' = Pump2000.events w
  /\ tx (Pump2000.port w') = tx (Pump2000.port w).
Proof.
  unfold Pump2000.read, serial_read. intros H.
  destruct (rx (Pump2000.port w)) as [| chunk later].
  - cbn in H. inversion H; subst. cbn. auto.
  - destruct (Nat.eqb _ 0); [| destruct (decode _)];
      inversion H; subst; cbn; auto.
Qed.

(** [s[-1]] is the last character. *)
Lemma get_last (s : string) (c : ascii) :
  String.get (String.length s) (String c s) = last_char (String c s).
Proof.
  revert c. induction s as [| d s IH]; intros c; [reflexivity |].
  change (String.get (String.length s) (String d s) = last_char (String d s)).
  apply IH.
Qed.

Lemma index_last (s : string) :
  Py.index s (-1)
  = match last_char s with
    | Some c => Ok c
    | None => Raise IndexError
    end.
Proof.
  destruct s as [| c s]; [reflexivity |].
  unfold Py.index, Py.len. cbv zeta. cbn [String.length].
  change (-1 <? 0) with true. cbv iota.
  assert (H0 : (-1 + Z.of_nat (S (String.length s)) <? 0) = false)
    by (apply Z.ltb_ge; lia).
  assert (H1 : (Z.of_nat (S (String.length s))
                <=? -1 + Z.of_nat (S (String.length s))) = false)
    by (apply Z.leb_gt; lia).
  rewrite H0, H1. cbn [orb]. cbv iota.
  replace (Z.to_nat (-1 + Z.of_nat (S (String.length s))))
    with (String.length s) by lia.
  rewrite get_last.
  destruct (last_char (String c s)) eqn:L; [reflexivity |].
  exfalso. clear - L. revert c L.
  induction s as [| d s IH]; intros c L; [discriminate |]. exact (IH d L).
Qed.

(** The check of the status: the state follows the last character of
    the reply, or the call raises and nothing has changed. *)
Lemma errorcheck_outcome (resp : option string) (w : Pump2000.world) :
  match resp, Pump2000._errorcheck resp w with
  | Some text, (Ok _, w') =>
      exists c st,
        last_char text = Some c /\ status_of c = Some st
        /\ w' = Pump2000.set_state st w
  | None, (Ok _, _) => False
  | _, (Raise e, w') =>
      w' = w
      /\ (e = TypeError \/ e = IndexError
          \/ e = PumpError [Pump2000.name (Pump2000.dev w)
                            ++ ": Unknown state encountered"])
  end.
Proof.
  destruct resp as [text |]; [| cbn; auto].
  unfold Pump2000._errorcheck, Pump2000.bind, Pump2000.lift. cbn.
  rewrite index_last.
  destruct (last_char text) as [c |]; [| cbn; auto].
  destruct (Ascii.eqb c ":") eqn:E1;
    [| destruct (Ascii.eqb c ">") eqn:E2;
       [| destruct (Ascii.eqb c "<") eqn:E3;
          [| destruct (Ascii.eqb c "*") eqn:E4; [| cbn; auto]]]];
    cbn; exists c; eexists; unfold status_of;
    rewrite ?E1, ?E2, ?E3, ?E4; auto.
Qed.

(** Follow a method of [Pump2000] through every reply: split on each
    read and on each status check. *)
Ltac phd_walk :=
  repeat first
    [ rewrite phd_write_frame
    | progress cbn [Pump2000.text_of fst snd orb]
    | progress unfold Pump2000.bind, Pump2000.lift, Pump2000.raise,
        Pump2000.ret, Pump2000.modify, Pump2000.sleep, Pump2000.state_is,
        Pump2000.gets, Pump2000.self_name
    | match goal with
      | |- context [Pump2000.read ?n ?w] =>
          let R := fresh "R" in
          destruct (Pump2000.read n w) as [[[? |] | ?] ?] eqn:R;
          destruct (phd_read_keeps _ _ _ _ R) as (? & ? & ?)
      | |- context [Pump2000._errorcheck ?r ?w] =>
          let E := fresh "E" in
          generalize (errorcheck_outcome r w);
          destruct (Pump2000._errorcheck r w) as [[[] | ?] ?];
          cbn beta iota; intros E;
          [ first [ contradiction E
                  | destruct E as (? & ? & ? & ? & ->) ]
          | destruct E as [-> E] ]
      end ].

(** X17: a command of [Pump2000] sends its one frame and keeps the
    settings.  Whatever the reply, [run], [rev], [stop], the two clear
    commands, [setdiameter] and [settargetvolume] append exactly their
    frame to what was sent, log nothing, and leave name, address,
    diameter, flow rate, target volume and rate units as they were: the
    two setters of this class store nothing in the object. *)
Theorem phd_commands_keep_settings (c : phd_command_call)
    (w : Pump2000.world) :
  tx (Pump2000.port (snd (phd_call c w)))
  = (tx (Pump2000.port w)
     ++ [(Pump2000.address (Pump2000.dev w) ++ frame (phd_text c))%string])%list
  /\ same_settings (Pump2000.dev (snd (phd_call c w))) (Pump2000.dev w)
  /\ Pump2000.rate_units (Pump2000.dev (snd (phd_call c w)))
     = Pump2000.rate_units (Pump2000.dev w)
  /\ Pump2000.events (snd (phd_call c w)) = Pump2000.events w.
Proof.
  unfold same_settings.
  destruct c; cbn [phd_call phd_text];
    unfold Pump2000.run, Pump2000.rev, Pump2000.stop,
      Pump2000.clear_accumulated_volume, Pump2000.clear_target_volume,
      Pump2000.setdiameter, Pump2000.settargetvolume;
    phd_walk;
    repeat match goal with
           | |- context [if ?b then _ else _] => destruct b
           end;
    cbn in *; repeat split; congruence.
Qed.

(** X18: [run] and [rev] overwrite the status they have just read.
    When [run] returns normally the state is infusing, and withdrawing
    after [rev], whichever of the four status characters the reply ended
    in; when they raise, the state is as before. *)
Theorem phd_run_rev_overwrite_status (w : Pump2000.world) :
  match Pump2000.run w with
  | (Ok _, w') => Pump2000.state (Pump2000.dev w') = Some Pump2000.Infusing
  | (Raise _, w') =>
      Pump2000.state (Pump2000.dev w') = Pump2000.state (Pump2000.dev w)
  end
  /\ match Pump2000.rev w with
     | (Ok _, w') => Pump2000.state (Pump2000.dev w') = Some Pump2000.Withdrawing
     | (Raise _, w') =>
         Pump2000.state (Pump2000.dev w') = Pump2000.state (Pump2000.dev w)
     end.
Proof.
  unfold Pump2000.run, Pump2000.rev.
  split; phd_walk; cbn in *; congruence.
Qed.

(** X19: [infuse] is [run] and [withdraw] is [rev].  The branch that
    stops the pump and reverses it tests for a state that the call
    before it has just overwritten, so it is never taken. *)
Theorem phd_infuse_never_reverses (w : Pump2000.world) :
  Pump2000.infuse w = Pump2000.run w
  /\ Pump2000.withdraw w = Pump2000.rev w.
Proof.
  unfold Pump2000.infuse, Pump2000.withdraw, Pump2000.run, Pump2000.rev.
  split; phd_walk; reflexivity.
Qed.

(** X20: [stop] returns normally only with the state idle or stalled.
    When it raises, either the state is as before, or the reply ended in
    the character of a running pump: then the state already says so and
    the error is that the pump could not be stopped. *)
Theorem phd_stop_outcomes (w : Pump2000.world) :
  match Pump2000.stop w with
  | (Ok _, w') =>
      Pump2000.state (Pump2000.dev w') = Some Pump2000.Idle
      \/ Pump2000.state (Pump2000.dev w') = Some Pump2000.Stalled
  | (Raise e, w') =>
      Pump2000.state (Pump2000.dev w') = Pump2000.state (Pump2000.dev w)
      \/ (phd_moving w'
          /\ e = PumpError [Pump2000.name (Pump2000.dev w)
                            ++ ": Pump could not be stopped."])
  end.
Proof.
  unfold Pump2000.stop, phd_moving.
  phd_walk; cbn in *; try (left; congruence).
  match goal with
  | x : Pump2000.status |- _ => destruct x
  end; cbn; auto; right; split; auto; congruence.
Qed.

(** X21: [set_rate] by unit.  A unit that is none of m/m, u/m, m/h,
    u/h raises [PumpError] before anything is sent or changed.  For
    each of the four the frame is the mnemonic and the rate with four
    decimals; the settings are kept, so the rate is not stored; and
    [rate_units] is written for m/h only, also when the reply is then
    refused. *)
Theorem phd_set_rate_by_unit (x : float) (units : string)
    (w : Pump2000.world) :
  match rate_mnemonic units with
  | None =>
      Pump2000.set_rate x units w
      = (Raise (PumpError [Pump2000.name (Pump2000.dev w)
                           ++ ": Unknown unit specified"]), w)
  | Some m =>
      tx (Pump2000.port (snd (Pump2000.set_rate x units w)))
      = (tx (Pump2000.port w)
         ++ [(Pump2000.address (Pump2000.dev w)
              ++ frame (m ++ percent_f 4 4 x))%string])%list
      /\ same_settings (Pump2000.dev (snd (Pump2000.set_rate x units w)))
           (Pump2000.dev w)
      /\ Pump2000.rate_units (Pump2000.dev (snd (Pump2000.set_rate x units w)))
         = if String.eqb units "m/h" then Some "ml/h"
           else Pump2000.rate_units (Pump2000.dev w)
  end.
Proof.
  unfold rate_mnemonic, Pump2000.set_rate, same_settings.
  generalize (percent_f 4 4 x). intros rate.
  destruct (String.eqb units "m/m") eqn:E1;
    [ apply String.eqb_eq in E1; subst units
    | destruct (String.eqb units "u/m") eqn:E2;
      [ apply String.eqb_eq in E2; subst units
      | destruct (String.eqb units "m/h") eqn:E3;
        [| destruct (String.eqb units "u/h") eqn:E4; [| reflexivity]]]];
    unfold Pump2000.send_rate; phd_walk; cbn in *;
    repeat split;
    first [ congruence
          | match goal with
            | H : Pump2000.dev _ = _ |- _ => rewrite H; reflexivity
            end ].
Qed.















(** On the bench: a stalled reply to [run] still leaves the state
    infusing; a reply that holds the prompt only gives the address as
    the diameter; and a version reply makes the pump. *)
Example phd_run_on_stalled_reply :
  fst (Pump2000.run (phd_bench Pump2000.Idle ["00*"])) = Ok tt
  /\ Pump2000.state (Pump2000.dev (snd (Pump2000.run (phd_bench Pump2000.Idle ["00*"]))))
     = Some Pump2000.Infusing.
Proof. vm_compute. split; reflexivity. Qed.

Example phd_getdiameter_on_prompt_only :
  fst (Pump2000.getdiameter (phd_bench Pump2000.Idle ["00:"])) = Ok "00 mm".
Proof. vm_compute. reflexivity. Qed.

Example Pump2000_init_makes_pump :
  exists self,
    made (Pump2000.init {| tx := []; rx := ["PHD 2000 00:"] |} "COM3" 0 "PhD2000")
    = Ok self
    /\ Pump2000.state self = Some Pump2000.Idle
    /\ Pump2000.address self = "00".
Proof. eexists. vm_compute. repeat split; reflexivity. Qed.

End Phd.
